(** * Session state, error classification and view components of
      angular-ngxs-material-starter

    A shallow embedding of

      - [AuthState] (the NGXS state class of the auth store: selectors,
        with the memoiser [@Selector] puts around them, and action handlers,
        with the immer recipes they hand to [ctx.setState]),
      - [HttpStatusInterceptor] ([intercept] and [_handleError$]),
      - [SignInContainerComponent._onSigninSubmitted],
      - [TwoFactorAuthenticationComponent] (inputs, user handlers, error
        messages) and [TwoFactorAuthenticationSetupWizardComponent],

    followed by the properties the specification states about them.

    Conventions.  The clock is read as a number of milliseconds since the
    epoch (type [Z]); a JavaScript [Date] is such a time value or an invalid
    date ([DateFns.Date]).  Calls to [LogService]
    only write to the console and are left out.  Third-party library
    functions (immer's [produce], date-fns, the NGXS dispatcher, rxjs'
    [NEVER]/[throwError]) are modelled next to the code that calls them. *)

From Stdlib Require Import ZArith QArith Qabs List String Bool Lia.
Import ListNotations.
Open Scope string_scope.
Open Scope Z_scope.

(* ================================================================= *)
(** ** The auth state model *)

Module Model.

(** [ActiveAuthType] is a union of string literals; the state defaults use
    ['sign-in-active'], the sign-in component ['forgot-password-active']. *)
Inductive ActiveAuthType :=
| sign_in_active
| sign_up_active
| forgot_password_active.

(** The numbers [expires_at] takes: an integer (a Unix time in seconds) or
    [NaN], which [getUnixTime] returns for an invalid date. *)
Inductive Number :=
| Int (n : Z)
| NaN.

(** [Object.is] on two such numbers ([NaN] is [NaN]). *)
Definition Number_eqb (a b : Number) : bool :=
  match a, b with
  | Int x, Int y => x =? y
  | NaN, NaN => true
  | _, _ => false
  end.

(** [n || 0]: [0] and [NaN] are falsy. *)
Definition or_zero (n : Number) : Number :=
  match n with
  | Int z => if z =? 0 then Int 0 else Int z
  | NaN => Int 0
  end.

(** The fields of the [defaults] object of the [@State] decorator. *)
Record AuthStateModel := mk {
  isAuthenticated : bool;
  access_token : string;
  expires_at : Number;
  rememberMe : bool;
  username : string;
  is2StepVerificationRequired : bool;
  is2StepVerificationSuccessful : bool;
  isRedeemRecoveryCodeSuccessful : bool;
  userId : string;
  activeAuthType : ActiveAuthType;
  passwordResetCompleted : bool
}.

Definition defaults : AuthStateModel :=
  {| isAuthenticated := false;
     access_token := "";
     expires_at := Int 0;
     rememberMe := false;
     username := "";
     is2StepVerificationRequired := false;
     is2StepVerificationSuccessful := false;
     isRedeemRecoveryCodeSuccessful := false;
     userId := "";
     activeAuthType := sign_in_active;
     passwordResetCompleted := false |}.

(** Field assignments [o.f = v]. *)
Definition set_isAuthenticated (v : bool) (o : AuthStateModel) :=
  mk v (access_token o) (expires_at o) (rememberMe o) (username o)
     (is2StepVerificationRequired o) (is2StepVerificationSuccessful o)
     (isRedeemRecoveryCodeSuccessful o) (userId o) (activeAuthType o)
     (passwordResetCompleted o).
Definition set_access_token (v : string) (o : AuthStateModel) :=
  mk (isAuthenticated o) v (expires_at o) (rememberMe o) (username o)
     (is2StepVerificationRequired o) (is2StepVerificationSuccessful o)
     (isRedeemRecoveryCodeSuccessful o) (userId o) (activeAuthType o)
     (passwordResetCompleted o).
Definition set_expires_at (v : Number) (o : AuthStateModel) :=
  mk (isAuthenticated o) (access_token o) v (rememberMe o) (username o)
     (is2StepVerificationRequired o) (is2StepVerificationSuccessful o)
     (isRedeemRecoveryCodeSuccessful o) (userId o) (activeAuthType o)
     (passwordResetCompleted o).
Definition set_rememberMe (v : bool) (o : AuthStateModel) :=
  mk (isAuthenticated o) (access_token o) (expires_at o) v (username o)
     (is2StepVerificationRequired o) (is2StepVerificationSuccessful o)
     (isRedeemRecoveryCodeSuccessful o) (userId o) (activeAuthType o)
     (passwordResetCompleted o).
Definition set_username (v : string) (o : AuthStateModel) :=
  mk (isAuthenticated o) (access_token o) (expires_at o) (rememberMe o) v
     (is2StepVerificationRequired o) (is2StepVerificationSuccessful o)
     (isRedeemRecoveryCodeSuccessful o) (userId o) (activeAuthType o)
     (passwordResetCompleted o).
Definition set_is2StepVerificationRequired (v : bool) (o : AuthStateModel) :=
  mk (isAuthenticated o) (access_token o) (expires_at o) (rememberMe o)
     (username o) v (is2StepVerificationSuccessful o)
     (isRedeemRecoveryCodeSuccessful o) (userId o) (activeAuthType o)
     (passwordResetCompleted o).
Definition set_is2StepVerificationSuccessful (v : bool) (o : AuthStateModel) :=
  mk (isAuthenticated o) (access_token o) (expires_at o) (rememberMe o)
     (username o) (is2StepVerificationRequired o) v
     (isRedeemRecoveryCodeSuccessful o) (userId o) (activeAuthType o)
     (passwordResetCompleted o).
Definition set_isRedeemRecoveryCodeSuccessful (v : bool) (o : AuthStateModel) :=
  mk (isAuthenticated o) (access_token o) (expires_at o) (rememberMe o)
     (username o) (is2StepVerificationRequired o)
     (is2StepVerificationSuccessful o) v (userId o) (activeAuthType o)
     (passwordResetCompleted o).
Definition set_userId (v : string) (o : AuthStateModel) :=
  mk (isAuthenticated o) (access_token o) (expires_at o) (rememberMe o)
     (username o) (is2StepVerificationRequired o)
     (is2StepVerificationSuccessful o) (isRedeemRecoveryCodeSuccessful o)
     v (activeAuthType o) (passwordResetCompleted o).
Definition set_activeAuthType (v : ActiveAuthType) (o : AuthStateModel) :=
  mk (isAuthenticated o) (access_token o) (expires_at o) (rememberMe o)
     (username o) (is2StepVerificationRequired o)
     (is2StepVerificationSuccessful o) (isRedeemRecoveryCodeSuccessful o)
     (userId o) v (passwordResetCompleted o).
Definition set_passwordResetCompleted (v : bool) (o : AuthStateModel) :=
  mk (isAuthenticated o) (access_token o) (expires_at o) (rememberMe o)
     (username o) (is2StepVerificationRequired o)
     (is2StepVerificationSuccessful o) (isRedeemRecoveryCodeSuccessful o)
     (userId o) (activeAuthType o) v.

Definition ActiveAuthType_eqb (a b : ActiveAuthType) : bool :=
  match a, b with
  | sign_in_active, sign_in_active
  | sign_up_active, sign_up_active
  | forgot_password_active, forgot_password_active => true
  | _, _ => false
  end.

(** Field-wise comparison of two objects (all fields hold primitives). *)
Definition eqb (a b : AuthStateModel) : bool :=
  Bool.eqb (isAuthenticated a) (isAuthenticated b)
  && String.eqb (access_token a) (access_token b)
  && Number_eqb (expires_at a) (expires_at b)
  && Bool.eqb (rememberMe a) (rememberMe b)
  && String.eqb (username a) (username b)
  && Bool.eqb (is2StepVerificationRequired a) (is2StepVerificationRequired b)
  && Bool.eqb (is2StepVerificationSuccessful a) (is2StepVerificationSuccessful b)
  && Bool.eqb (isRedeemRecoveryCodeSuccessful a) (isRedeemRecoveryCodeSuccessful b)
  && String.eqb (userId a) (userId b)
  && ActiveAuthType_eqb (activeAuthType a) (activeAuthType b)
  && Bool.eqb (passwordResetCompleted a) (passwordResetCompleted b).

(** An object literal holding some of the model's fields
    ([Partial<AuthStateModel>]): the shape of the payloads that the
    handlers spread over the state. *)
Record Partial := mkPartial {
  isAuthenticated' : option bool;
  access_token' : option string;
  expires_at' : option Number;
  rememberMe' : option bool;
  username' : option string;
  is2StepVerificationRequired' : option bool;
  is2StepVerificationSuccessful' : option bool;
  isRedeemRecoveryCodeSuccessful' : option bool;
  userId' : option string;
  activeAuthType' : option ActiveAuthType;
  passwordResetCompleted' : option bool
}.

Definition empty : Partial :=
  mkPartial None None None None None None None None None None None.

Definition or_else {A} (p : option A) (d : A) : A :=
  match p with Some v => v | None => d end.

(** The object literal [{ ...o, ...p }]: the fields of [o], overwritten by
    those present in [p]. *)
Definition spread (o : AuthStateModel) (p : Partial) : AuthStateModel :=
  {| isAuthenticated := or_else (isAuthenticated' p) (isAuthenticated o);
     access_token := or_else (access_token' p) (access_token o);
     expires_at := or_else (expires_at' p) (expires_at o);
     rememberMe := or_else (rememberMe' p) (rememberMe o);
     username := or_else (username' p) (username o);
     is2StepVerificationRequired :=
       or_else (is2StepVerificationRequired' p) (is2StepVerificationRequired o);
     is2StepVerificationSuccessful :=
       or_else (is2StepVerificationSuccessful' p) (is2StepVerificationSuccessful o);
     isRedeemRecoveryCodeSuccessful :=
       or_else (isRedeemRecoveryCodeSuccessful' p) (isRedeemRecoveryCodeSuccessful o);
     userId := or_else (userId' p) (userId o);
     activeAuthType := or_else (activeAuthType' p) (activeAuthType o);
     passwordResetCompleted :=
       or_else (passwordResetCompleted' p) (passwordResetCompleted o) |}.

End Model.

(** An integer where a number is expected is that number. *)
Coercion Model.Int : Z >-> Model.Number.

(* ================================================================= *)
(** ** immer: [produce] applied to a recipe

    A recipe is a function of one parameter, [draft], which immer binds to a
    proxy of the base state.  Inside a recipe the code does three things:
    it assigns to a property of whatever [draft] refers to, it re-binds the
    parameter itself ([draft = { ...draft, ...payload }], which makes
    [draft] refer to a fresh plain object and leaves the proxy alone), and it
    returns [draft] or falls off the end.  The environment below keeps what
    the proxy holds apart from what the parameter refers to. *)

Module Immer.
Import Model.

(** What the recipe's parameter currently refers to: immer's proxy, or a
    plain object created inside the recipe (reachable through the
    parameter only, so its contents are carried along). *)
Inductive Target :=
| Proxy
| Plain (obj : AuthStateModel).

Record Env := mkEnv {
  copy_ : AuthStateModel;     (* the proxy's current contents *)
  modified_ : bool;           (* immer's flag: was the proxy written to *)
  draft : Target              (* the binding of the parameter [draft] *)
}.

Definition Recipe (A : Type) := Env -> A * Env.

Definition ret {A} (a : A) : Recipe A := fun e => (a, e).
Definition bind {A B} (m : Recipe A) (k : A -> Recipe B) : Recipe B :=
  fun e => let (a, e') := m e in k a e'.

(** The object the parameter refers to. *)
Definition deref (e : Env) : AuthStateModel :=
  match draft e with
  | Proxy => copy_ e
  | Plain o => o
  end.

(** Reading [draft] (to take a field of it). *)
Definition read : Recipe AuthStateModel := fun e => (deref e, e).

(** [draft.f = v], with [upd] the field assignment.  Through the proxy the
    write lands in immer's copy and marks it modified when the value
    changes; otherwise it lands in the plain object. *)
Definition assign (upd : AuthStateModel -> AuthStateModel) : Recipe unit :=
  fun e =>
    match draft e with
    | Proxy =>
        let o := upd (copy_ e) in
        (tt, mkEnv o (modified_ e || negb (Model.eqb (copy_ e) o)) Proxy)
    | Plain o => (tt, mkEnv (copy_ e) (modified_ e) (Plain (upd o)))
    end.

(** [draft = { ...draft, ...payload }]. *)
Definition rebind_spread (payload : Partial) : Recipe unit :=
  fun e => (tt, mkEnv (copy_ e) (modified_ e) (Plain (spread (deref e) payload))).

(** [return draft;] and the end of a recipe without [return]. *)
Definition return_draft : Recipe (option Target) :=
  fun e => (Some (draft e), e).
Definition no_return : Recipe (option Target) :=
  fun e => (None, e).

(** The result of [produce]: the next state, or immer's error "a producer
    returned a new value *and* modified its draft". *)
Inductive Produced :=
| Next (s : AuthStateModel)
| Die.

(** [produce(recipe)(base)].  A recipe that returns nothing, or its proxy,
    yields the finalised proxy (the base state itself when nothing was
    written to it); a recipe that returns another object yields that
    object, provided the proxy is unmodified. *)
Definition produce (recipe : Recipe (option Target)) (base : AuthStateModel)
  : Produced :=
  let (result, e) := recipe (mkEnv base false Proxy) in
  match result with
  | None => Next (copy_ e)
  | Some Proxy => Next (copy_ e)
  | Some (Plain o) => if modified_ e then Die else Next o
  end.

End Immer.

(* ================================================================= *)
(** ** Dates and date-fns

    A [Date] holds a time value: a whole number of milliseconds within
    8.64e15 of the epoch, or [NaN] (an invalid date).  [new Date(ms)] clips
    a time value outside that range to [NaN]. *)

Module DateFns.

Inductive Date :=
| at_ms (time : Z)
| Invalid_Date.

Definition in_range (ms : Z) : bool := Z.abs ms <=? 8640000000000000.

(** [new Date(ms)]. *)
Definition new_Date_of (ms : Z) : Date :=
  if in_range ms then at_ms ms else Invalid_Date.

(** [add(date, { seconds })]:
    [new Date(date.getTime() + seconds * 1000)]. *)
Definition add_seconds (date : Date) (seconds : Z) : Date :=
  match date with
  | at_ms time => new_Date_of (time + seconds * 1000)
  | Invalid_Date => Invalid_Date
  end.

(** [getUnixTime(date)]: [Math.floor(date.getTime() / 1000)]. *)
Definition getUnixTime (date : Date) : Model.Number :=
  match date with
  | at_ms time => Model.Int (time / 1000)
  | Invalid_Date => Model.NaN
  end.

(** [fromUnixTime(unixTime)]: [new Date(unixTime * 1000)]. *)
Definition fromUnixTime (unixTime : Model.Number) : Date :=
  match unixTime with
  | Model.Int seconds => new_Date_of (seconds * 1000)
  | Model.NaN => Invalid_Date
  end.

(** [isBefore(date, dateToCompare)]:
    [date.getTime() < dateToCompare.getTime()], false when either is
    [NaN]. *)
Definition isBefore (date dateToCompare : Date) : bool :=
  match date, dateToCompare with
  | at_ms a, at_ms b => a <? b
  | _, _ => false
  end.

End DateFns.

(* ================================================================= *)
(** ** The actions of the auth store *)

Module Auth.

Record AccessToken := mkAccessToken {
  access_token : string;
  expires_in : Z
}.

(** The payload the [signin] handler reads:
    [payload.accessToken.access_token], [payload.accessToken.expires_in]
    and [payload.userId]. *)
Record SigninPayload := mkSigninPayload {
  accessToken : AccessToken;
  userId : string
}.

(** One constructor per action class named in an [@Action] decorator or a
    handler signature of [AuthState].  Distinct classes carry distinct
    [type] strings, which is how NGXS tells them apart. *)
Inductive Action :=
| RememberMeOptionChange (payload : Model.Partial)
| UpdateRememberMeUsername (payload : Model.Partial)
| Signin (payload : SigninPayload)
| SetCurrentUserId (payload : Model.Partial)
| Signout
| KeepOrRemoveRememberMeUsername
| SwitchAuthType (payload : Model.Partial)
| Is2StepVerificationSuccessful (payload : Model.Partial)
| Is2StepVerificationRequired (payload : Model.Partial)
| IsRedeemRecoveryCodeSuccessful (payload : Model.Partial)
| PasswordResetCompleted (payload : Model.Partial)
| PersistSettings (payload : Model.AuthStateModel).

(** Modelled from the spec: the action classes live in auth.store.actions,
    which is not among the sources; the specification gives
    ChangeRememberMe, SetTwoStepRequired and SetTwoStepSuccessful a boolean
    input that sets the field of the same name, so their payloads are the
    one-field objects [{ rememberMe }], [{ is2StepVerificationRequired }]
    and [{ is2StepVerificationSuccessful }]. *)
Definition rememberMe_payload (b : bool) : Model.Partial :=
  Model.mkPartial None None None (Some b) None None None None None None None.
Definition is2StepVerificationRequired_payload (b : bool) : Model.Partial :=
  Model.mkPartial None None None None None (Some b) None None None None None.
Definition is2StepVerificationSuccessful_payload (b : bool) : Model.Partial :=
  Model.mkPartial None None None None None None (Some b) None None None None.

End Auth.

(* ================================================================= *)
(** ** NGXS: state context and dispatcher *)

Module Ngxs.
Import Model.

(** Keys of the local storage: [AUTH_KEY] is ['AUTH']; [ACTIVE_UNTIL] is
    imported from user-session-activity-key. *)
Inductive StorageKey := AUTH_KEY | ACTIVE_UNTIL.

(** Calls made on [LocalStorageService], in the order they are made. *)
Inductive StorageCall :=
| setItem (key : StorageKey) (value : AuthStateModel)
| removeItem (key : StorageKey).

(** What a running handler sees and changes: the slice of state behind
    [ctx], the calls made on the storage service so far, and the actions
    handed to [ctx.dispatch], which NGXS queues until the handlers of the
    current action have run. *)
Record Ctx := mkCtx {
  state : AuthStateModel;
  calls : list StorageCall;
  queued : list Auth.Action
}.

(** A handler reads the clock ([new Date()]) and the context; [None] is a
    thrown exception. *)
Definition Handler (A : Type) := Z -> Ctx -> option (A * Ctx).

Definition ret {A} (a : A) : Handler A := fun _ c => Some (a, c).
Definition bind {A B} (m : Handler A) (k : A -> Handler B) : Handler B :=
  fun now c =>
    match m now c with
    | Some (a, c') => k a now c'
    | None => None
    end.

(** [new Date()]: the date of the clock's time [now]. *)
Definition new_Date : Handler DateFns.Date :=
  fun now c => Some (DateFns.at_ms now, c).

(** [ctx.getState()]. *)
Definition getState : Handler AuthStateModel := fun _ c => Some (state c, c).

(** [ctx.setState(operator)] with a state operator built by [produce]. *)
Definition setState (operator : AuthStateModel -> Immer.Produced)
  : Handler unit :=
  fun _ c =>
    match operator (state c) with
    | Immer.Next s => Some (tt, mkCtx s (calls c) (queued c))
    | Immer.Die => None
    end.

(** [ctx.dispatch(action)]. *)
Definition dispatch (a : Auth.Action) : Handler unit :=
  fun _ c => Some (tt, mkCtx (state c) (calls c) (queued c ++ [a])).

(** A call on [this._localStorageService]. *)
Definition localStorageService (call : StorageCall) : Handler unit :=
  fun _ c => Some (tt, mkCtx (state c) (calls c ++ [call]) (queued c)).

End Ngxs.

(** One notation for sequencing in recipes and in handlers. *)
Class Sequencing (M : Type -> Type) := {
  seq_ret : forall {A}, A -> M A;
  seq_bind : forall {A B}, M A -> (A -> M B) -> M B
}.

#[global] Instance Recipe_Sequencing : Sequencing Immer.Recipe :=
  {| seq_ret := @Immer.ret; seq_bind := @Immer.bind |}.
#[global] Instance Handler_Sequencing : Sequencing Ngxs.Handler :=
  {| seq_ret := @Ngxs.ret; seq_bind := @Ngxs.bind |}.

Notation "x <- m ;; k" := (seq_bind m (fun x => k))
  (at level 61, m at next level, right associativity).
Notation "m ;; k" := (seq_bind m (fun _ => k))
  (at level 61, right associativity).

(* ================================================================= *)
(** ** [AuthState]: selectors and action handlers *)

Module AuthState.
Import Immer Ngxs.

(** *** Selectors.  Those that read the clock take it as [now]. *)

Definition selectDidUserExplicitlySignout (state : Model.AuthStateModel) : bool :=
  String.eqb (Model.access_token state) "".

Definition selectCurrentUserId (state : Model.AuthStateModel) : string :=
  Model.userId state.

(** [state.access_token || '']. *)
Definition selectAccessToken (state : Model.AuthStateModel) : string :=
  if String.eqb (Model.access_token state) "" then "" else Model.access_token state.

Definition selectRememberMe (state : Model.AuthStateModel) : bool :=
  Model.rememberMe state.

Definition selectUsername (state : Model.AuthStateModel) : string :=
  Model.username state.

Definition selectActiveAuthType (state : Model.AuthStateModel)
  : Model.ActiveAuthType :=
  Model.activeAuthType state.

Definition selectIs2StepVerificationSuccessful (state : Model.AuthStateModel) : bool :=
  Model.is2StepVerificationSuccessful state.

Definition selectIsRedeemRecoveryCodeSuccessful (state : Model.AuthStateModel) : bool :=
  Model.isRedeemRecoveryCodeSuccessful state.

Definition selectExpiresAtRaw (state : Model.AuthStateModel) : Model.Number :=
  Model.expires_at state.

Definition selectPasswordResetCompleted (state : Model.AuthStateModel) : bool :=
  Model.passwordResetCompleted state.

(** [fromUnixTime(state.expires_at || 0)]. *)
Definition _selectExpiresAt (state : Model.AuthStateModel) : DateFns.Date :=
  DateFns.fromUnixTime (Model.or_zero (Model.expires_at state)).

(** The method [selectIsAuthenticated]:
    [state.isAuthenticated && isBefore(new Date(), expires_at)], with
    [expires_at] the value of [_selectExpiresAt] and [now] the time of the
    call.  This is what runs when the memoiser the [@Selector] decorator
    puts around the method misses; the selector as the application calls it
    is [Selector.selectIsAuthenticated] below. *)
Definition selectIsAuthenticated (now : Z) (state : Model.AuthStateModel) : bool :=
  Model.isAuthenticated state
  && DateFns.isBefore (DateFns.at_ms now) (_selectExpiresAt state).

Definition selectIsAuthenticatedFunc (state : Model.AuthStateModel)
  : DateFns.Date -> DateFns.Date -> bool :=
  fun date expires_at => Model.isAuthenticated state && DateFns.isBefore date expires_at.

(** The method [selectExpiresInSeconds], run at time [now] (on a miss of
    its memoiser, see [Selector.selectExpiresInSeconds]).  [None] is [NaN],
    the result for an invalid expiry date.  [difference / 1000] is a
    division of numbers, not of integers: the result is kept as an exact
    fraction. *)
Definition selectExpiresInSeconds (now : Z) (state : Model.AuthStateModel)
  : option Q :=
  match _selectExpiresAt state with
  | DateFns.at_ms expires_at =>
      let difference := expires_at - now in
      let seconds := (inject_Z difference / inject_Z 1000)%Q in
      Some (Qabs seconds)
  | DateFns.Invalid_Date => None
  end.

(** *** Action handlers *)

(** The recipe shared by the handlers that merge their payload:
    [draft = { ...draft, ...action.payload }; return draft;]. *)
Definition merge_payload (payload : Model.Partial) : Recipe (option Target) :=
  rebind_spread payload ;;
  return_draft.

Definition persist : Handler unit :=
  auth <- getState ;;
  dispatch (Auth.PersistSettings auth).

Definition rememberMe (payload : Model.Partial) : Handler unit :=
  setState (produce (
    rebind_spread payload ;;
    (* clear out username everytime this option changes. *)
    assign (Model.set_username "") ;;
    no_return)) ;;
  persist.

Definition updateRememberMeUsername (payload : Model.Partial) : Handler unit :=
  setState (produce (merge_payload payload)) ;;
  persist.

Definition signin (payload : Auth.SigninPayload) : Handler unit :=
  date <- new_Date ;;
  let expires_at :=
    DateFns.getUnixTime
      (DateFns.add_seconds date (Auth.expires_in (Auth.accessToken payload))) in
  setState (produce (
    assign (Model.set_isAuthenticated true) ;;
    assign (Model.set_access_token (Auth.access_token (Auth.accessToken payload))) ;;
    assign (Model.set_expires_at expires_at) ;;
    assign (Model.set_userId (Auth.userId payload)) ;;
    no_return)) ;;
  persist.

Definition setCurrentUserId (payload : Model.Partial) : Handler unit :=
  setState (produce (merge_payload payload)) ;;
  persist.

Definition signout : Handler unit :=
  setState (produce (
    assign (Model.set_isAuthenticated false) ;;
    assign (Model.set_is2StepVerificationRequired false) ;;
    assign (Model.set_is2StepVerificationSuccessful false) ;;
    assign (Model.set_isRedeemRecoveryCodeSuccessful false) ;;
    assign (Model.set_access_token "") ;;
    assign (Model.set_expires_at 0) ;;
    assign (Model.set_userId "") ;;
    no_return)) ;;
  localStorageService (removeItem ACTIVE_UNTIL) ;;
  persist.

Definition keepOrRemoveRememberMeUsername : Handler unit :=
  s <- getState ;;
  let rememberMe := Model.rememberMe s in
  setState (produce (
    d <- read ;;
    assign (Model.set_username (if rememberMe then Model.username d else "")) ;;
    no_return)) ;;
  persist.

Definition switchAuthType (payload : Model.Partial) : Handler unit :=
  setState (produce (merge_payload payload)) ;;
  persist.

Definition is2StepVerificationSuccessful (payload : Model.Partial) : Handler unit :=
  setState (produce (merge_payload payload)) ;;
  persist.

Definition is2StepVerificationRequired (payload : Model.Partial) : Handler unit :=
  setState (produce (merge_payload payload)) ;;
  persist.

Definition isRedeemRecoveryCodeSuccessful (payload : Model.Partial) : Handler unit :=
  setState (produce (merge_payload payload)) ;;
  persist.

Definition passwordResetCompleted (payload : Model.Partial) : Handler unit :=
  setState (produce (merge_payload payload)) ;;
  persist.

Definition persistSettings (payload : Model.AuthStateModel) : Handler unit :=
  localStorageService (setItem AUTH_KEY payload).

(** The handlers NGXS runs for an action: those whose [@Action] decorator
    names the action's class, in the order of the class body.  Two
    decorators name [Auth.Is2StepVerificationSuccessful] (the one on
    [is2StepVerificationSuccessful] and the one on
    [is2StepVerificationRequired]); none names
    [Auth.Is2StepVerificationRequired]. *)
Definition handlers (action : Auth.Action) : list (Handler unit) :=
  match action with
  | Auth.RememberMeOptionChange p => [rememberMe p]
  | Auth.UpdateRememberMeUsername p => [updateRememberMeUsername p]
  | Auth.Signin p => [signin p]
  | Auth.SetCurrentUserId p => [setCurrentUserId p]
  | Auth.Signout => [signout]
  | Auth.KeepOrRemoveRememberMeUsername => [keepOrRemoveRememberMeUsername]
  | Auth.SwitchAuthType p => [switchAuthType p]
  | Auth.Is2StepVerificationSuccessful p =>
      [is2StepVerificationSuccessful p; is2StepVerificationRequired p]
  | Auth.Is2StepVerificationRequired _ => []
  | Auth.IsRedeemRecoveryCodeSuccessful p => [isRedeemRecoveryCodeSuccessful p]
  | Auth.PasswordResetCompleted p => [passwordResetCompleted p]
  | Auth.PersistSettings p => [persistSettings p]
  end.

End AuthState.

(* ================================================================= *)
(** ** NGXS: memoised selectors

    The [@Selector] decorator replaces a method by a memoiser with one
    entry: called with arguments identical ([===]) to those of the previous
    call, it returns the previous result without running the method, and so
    without reading the clock again.  The arguments of the selectors below
    are the state object and the date [_selectExpiresAt] returned for it;
    that selector is memoised on the state object, so the date is the same
    object as long as the state object is.  A state object is therefore
    what the cache is keyed on. *)

Module Selector.

(** A state object: its identity and what it holds. *)
Record StateObject := mkObject {
  identity : nat;
  contents : Model.AuthStateModel
}.

(** The memoiser's entry: the state object of the last call and the result
    returned for it. *)
Definition Cache (A : Type) := option (nat * A).

Definition hits {A} (cache : Cache A) (state : StateObject) : bool :=
  match cache with
  | Some (id, _) => Nat.eqb id (identity state)
  | None => false
  end.

(** A call of the memoised selector at time [now]: the result and the
    cache it leaves. *)
Definition read {A} (method : Z -> Model.AuthStateModel -> A)
  (now : Z) (state : StateObject) (cache : Cache A) : A * Cache A :=
  match cache with
  | Some (id, value) =>
      if Nat.eqb id (identity state)
      then (value, cache)
      else let result := method now (contents state) in
           (result, Some (identity state, result))
  | None =>
      let result := method now (contents state) in
      (result, Some (identity state, result))
  end.

(** Calls at the given times, with the state object unchanged in
    between. *)
Fixpoint reads {A} (method : Z -> Model.AuthStateModel -> A)
  (times : list Z) (state : StateObject) (cache : Cache A) : list A :=
  match times with
  | [] => []
  | now :: later =>
      let (result, cache') := read method now state cache in
      result :: reads method later state cache'
  end.

Definition selectIsAuthenticated := read AuthState.selectIsAuthenticated.

Definition selectExpiresInSeconds := read AuthState.selectExpiresInSeconds.

End Selector.

(* ================================================================= *)
(** ** The store: dispatching an action from outside *)

Module Store.
Import Ngxs.

(** The auth slice and the calls received by the storage service. *)
Record Store := mkStore {
  auth : Model.AuthStateModel;
  localStorage : list StorageCall
}.

(** Runs handlers one after the other on the same context. *)
Fixpoint run_all (hs : list (Handler unit)) : Handler unit :=
  match hs with
  | [] => Ngxs.ret tt
  | h :: rest => Ngxs.bind h (fun _ => run_all rest)
  end.

(** The handlers of one action, starting with an empty queue. *)
Definition handle (now : Z) (action : Auth.Action) (s : Store)
  : option (Store * list Auth.Action) :=
  match run_all (AuthState.handlers action) now
          (mkCtx (auth s) (localStorage s) []) with
  | Some (_, c) => Some (mkStore (state c) (calls c), queued c)
  | None => None
  end.

(** The actions queued by the handlers of the dispatched action, handled
    in turn.  (They are [PersistSettings] actions, whose handler queues
    nothing: see [handle_queues_persist] and [handle_persist].) *)
Fixpoint drain (now : Z) (queue : list Auth.Action) (s : Store) : option Store :=
  match queue with
  | [] => Some s
  | a :: rest =>
      match handle now a s with
      | Some (s', _) => drain now rest s'
      | None => None
      end
  end.

(** [store.dispatch(action)] at time [now]. *)
Definition dispatch (now : Z) (action : Auth.Action) (s : Store) : option Store :=
  match handle now action s with
  | Some (s', queue) => drain now queue s'
  | None => None
  end.

End Store.

(* ================================================================= *)
(** ** JavaScript values of unknown shape ([any]) *)

Module Js.

#[local] Set Warnings "-register-all".

Inductive Value :=
| undefined
| null
| boolean (b : bool)
| number (n : Z)
| str (s : string)
| object (fields : list (string * Value)).

(** [o[key]] on a value: the first field of that name of an object. *)
Fixpoint lookup (key : string) (fields : list (string * Value)) : Value :=
  match fields with
  | [] => undefined
  | (k, v) :: rest => if String.eqb k key then v else lookup key rest
  end.

Definition get (key : string) (v : Value) : Value :=
  match v with
  | object fields => lookup key fields
  | _ => undefined
  end.

(** Truthiness, as [||], [&&] and [if] see a value. *)
Definition truthy (v : Value) : bool :=
  match v with
  | undefined | null => false
  | boolean b => b
  | number n => negb (n =? 0)
  | str s => negb (String.eqb s "")
  | object _ => true
  end.

(** [v !== null]. *)
Definition non_null (v : Value) : bool :=
  match v with
  | null => false
  | _ => true
  end.

End Js.

(* ================================================================= *)
(** ** [HttpStatusInterceptor] *)

Module HttpStatusInterceptor.

(** The parts of [HttpErrorResponse] the interceptor reads. *)
Record HttpErrorResponse := mkResponse {
  status : Z;
  error : Js.Value
}.

(** Modelled from the spec: [ServerErrorService] (error-handler/
    server-error.service) is not among the sources.  The specification has
    the classifier "store" an outcome as the "latest validation error" or
    the latest server error: each of the two properties holds the value
    last assigned to it. *)
Record ServerErrorService := mkService {
  problemDetails : Js.Value;
  internalServerErrorDetails : Js.Value
}.

(** What [throwError] is given: the response itself or an error object. *)
Inductive Thrown :=
| response (e : HttpErrorResponse)
| details (v : Js.Value).

(** The observables [_handleError$] returns: rxjs' [NEVER] emits no value,
    no error and no completion; [throwError(x)] emits nothing and errors
    with [x] on subscription. *)
Inductive Observable :=
| NEVER
| throwError (x : Thrown).

Section HandleError.

(** The type guard of utilities/implements-odm-web-api-exception, which
    is not among the sources. *)
Variable implementsOdmWebApiException : Js.Value -> bool.

(** [_handleError$(e)], on the service it writes to. *)
Definition _handleError (service : ServerErrorService) (e : HttpErrorResponse)
  : ServerErrorService * Observable :=
  if status e =? 400 then
    (mkService (error e) (internalServerErrorDetails service), NEVER)
  else if (status e =? 401) || (status e =? 403) then
    (mkService (error e) (internalServerErrorDetails service),
     throwError (response e))
  else if status e =? 500 then
    let internalServerError := error e in
    if implementsOdmWebApiException internalServerError then
      (mkService (problemDetails service) (error e),
       throwError (details internalServerError))
    else
      let error :=
        Js.object [("status", Js.number (status e)); ("message", error e)] in
      (mkService (problemDetails service) error, throwError (details error))
  else if status e =? 504 then
    let error :=
      Js.object [("status", Js.number (status e));
                 ("message", Js.str "Server is down.")] in
    (mkService (problemDetails service) error, throwError (details error))
  else
    (service, throwError (response e)).

End HandleError.

(** Does the caller of the intercepted request see a failure? *)
Definition propagates (o : Observable) : bool :=
  match o with
  | NEVER => false
  | throwError _ => true
  end.

End HttpStatusInterceptor.

(* ================================================================= *)
(** ** [SignInContainerComponent] *)

Module SignInContainerComponent.

(** The value of the sign-in form ([email], [password] and [rememberMe]
    controls), which is what the view submits. *)
Record SigninUser := mkSigninUser {
  email : string;
  password : string;
  rememberMe : bool
}.

(** Calls on the sandbox service [_sb]; [signinUser] is the one that
    starts the sign-in exchange. *)
Inductive SandboxCall :=
| signinUser (model : SigninUser)
| changeRememberMeState (event : bool).

(** The errors of the form's [email] control: [null], or the keys of the
    errors present. *)
Record Component := mkComponent {
  email_errors : option (list string)
}.

(** [control.hasError(code)]. *)
Definition hasError (code : string) (errors : option (list string)) : bool :=
  match errors with
  | None => false
  | Some keys => existsb (String.eqb code) keys
  end.

(** [_onSigninSubmitted(model)]: the component afterwards and the calls
    made on the sandbox. *)
Definition _onSigninSubmitted (model : SigninUser) (c : Component)
  : Component * list SandboxCall :=
  let c1 :=
    if hasError "serverError" (email_errors c)
    then mkComponent None     (* clear old errors *)
    else c in
  if negb (String.eqb (email model) "") && negb (String.eqb (password model) "")
  then (c1, [signinUser model])
  else (c1, []).

Definition _onRememberMeChanged (event : bool) (c : Component)
  : Component * list SandboxCall :=
  (c, [changeRememberMeState event]).

End SignInContainerComponent.

(* ================================================================= *)
(** ** [TwoFactorAuthenticationComponent] *)

Module TwoFactorAuthenticationComponent.

(** [TwoFactorAuthenticationSetup], as far as the component reads it. *)
Record TwoFactorAuthenticationSetup := mkSetup {
  authenticatorUri : string;
  sharedKey : string
}.

(** Values sent through the component's [@Output] emitters. *)
Inductive Emitted :=
| verifyAuthenticatorClicked (event : Js.Value)
| cancelSetupWizardClicked
| finish2faSetupClicked (event : Js.Value)
| generateNew2faRecoveryCodesClicked
| twoFactorAuthToggleChanged (event : Js.Value).

(** The fields the setters and handlers touch.  [toggle_checked] is the
    [checked] property of the [@ViewChild] slide toggle, [None] while the
    view child is not there; [timeouts] counts the callbacks handed to
    [setTimeout] that have not run yet; [emitted] lists what the outputs
    have sent, oldest first.  A class field without initialiser starts
    [undefined]. *)
Record Component := mkComponent {
  _problemDetails : Js.Value;
  _internalServerErrorDetails : Js.Value;
  twoFactorEnabled : bool;
  _twoFactorAuthToggleLoading : bool;
  _authenticatorSetup : option TwoFactorAuthenticationSetup;
  _showTwoFactorAuthSetupWizard : bool;
  toggle_checked : option bool;
  timeouts : nat;
  emitted : list Emitted
}.

Definition initial (twoFactorEnabled : bool) : Component :=
  mkComponent Js.undefined Js.undefined twoFactorEnabled false None false
              None 0 [].

Definition with_errors (pd ise : Js.Value) (c : Component) : Component :=
  mkComponent pd ise (twoFactorEnabled c) (_twoFactorAuthToggleLoading c)
              (_authenticatorSetup c) (_showTwoFactorAuthSetupWizard c)
              (toggle_checked c) (timeouts c) (emitted c).

Definition with_wizard (show : bool) (c : Component) : Component :=
  mkComponent (_problemDetails c) (_internalServerErrorDetails c)
              (twoFactorEnabled c) (_twoFactorAuthToggleLoading c)
              (_authenticatorSetup c) show
              (toggle_checked c) (timeouts c) (emitted c).

Definition emit (e : Emitted) (c : Component) : Component :=
  mkComponent (_problemDetails c) (_internalServerErrorDetails c)
              (twoFactorEnabled c) (_twoFactorAuthToggleLoading c)
              (_authenticatorSetup c) (_showTwoFactorAuthSetupWizard c)
              (toggle_checked c) (timeouts c) (emitted c ++ [e]).

(** *** Input setters *)

Definition set_problemDetails (value : Js.Value) (c : Component) : Component :=
  let c := with_errors (_problemDetails c) Js.null c in
  with_errors value (_internalServerErrorDetails c) c.

Definition set_internalServerErrorDetails (value : Js.Value) (c : Component)
  : Component :=
  let c := with_errors Js.null (_internalServerErrorDetails c) c in
  with_errors (_problemDetails c) value c.

Definition set_twoFactorAuthToggleLoading (value : bool) (c : Component)
  : Component :=
  mkComponent (_problemDetails c) (_internalServerErrorDetails c)
              (twoFactorEnabled c) value
              (_authenticatorSetup c) (_showTwoFactorAuthSetupWizard c)
              (toggle_checked c) (S (timeouts c)) (emitted c).

(** The callback [set_twoFactorAuthToggleLoading] defers with
    [setTimeout], when it runs. *)
Definition timeout_callback (c : Component) : Component :=
  match timeouts c with
  | O => c
  | S n =>
      let checked :=
        match toggle_checked c with
        | Some old =>
            if Js.truthy (_problemDetails c)
               || Js.truthy (_internalServerErrorDetails c)
            then Some (twoFactorEnabled c)
            else Some old
        | None => None
        end in
      mkComponent (_problemDetails c) (_internalServerErrorDetails c)
                  (twoFactorEnabled c) (_twoFactorAuthToggleLoading c)
                  (_authenticatorSetup c) (_showTwoFactorAuthSetupWizard c)
                  checked n (emitted c)
  end.

Definition set_authenticatorSetup (value : TwoFactorAuthenticationSetup)
  (c : Component) : Component :=
  let c :=
    mkComponent (_problemDetails c) (_internalServerErrorDetails c)
                (twoFactorEnabled c) (_twoFactorAuthToggleLoading c)
                (Some value) (_showTwoFactorAuthSetupWizard c)
                (toggle_checked c) (timeouts c) (emitted c) in
  if negb (String.eqb (authenticatorUri value) "")
     && negb (String.eqb (sharedKey value) "")
  then with_wizard true c
  else c.

(** *** Handlers *)

Definition _removeServerErrors (c : Component) : Component :=
  let c := with_errors Js.null (_internalServerErrorDetails c) c in
  with_errors (_problemDetails c) Js.null c.

Definition _onTwoFactorAuthToggle (event : Js.Value) (c : Component) : Component :=
  emit (twoFactorAuthToggleChanged event) (_removeServerErrors c).

Definition _onCancelSetupWizard (c : Component) : Component :=
  emit cancelSetupWizardClicked (_removeServerErrors (with_wizard false c)).

Definition _onFinish2faSetup (event : Js.Value) (c : Component) : Component :=
  emit (finish2faSetupClicked event) (with_wizard false c).

Definition _onGenerateNew2FaRecoveryCodes (c : Component) : Component :=
  emit generateNew2faRecoveryCodesClicked (_removeServerErrors c).

Definition _onVerifyAuthenticator (event : Js.Value) (c : Component) : Component :=
  emit (verifyAuthenticatorClicked event) (_removeServerErrors c).

Definition _onUserCodesPanelClosed (c : Component) : Component :=
  _removeServerErrors c.

(** *** The component as a transition system *)

Inductive Event :=
| ProblemDetailsInput (value : Js.Value)
| InternalServerErrorDetailsInput (value : Js.Value)
| TwoFactorAuthToggleLoadingInput (value : bool)
| AuthenticatorSetupInput (value : TwoFactorAuthenticationSetup)
| TimeoutFires
| TwoFactorAuthToggle (event : Js.Value)
| CancelSetupWizard
| Finish2faSetup (event : Js.Value)
| GenerateNew2FaRecoveryCodes
| VerifyAuthenticator (event : Js.Value)
| UserCodesPanelClosed.

Definition step (ev : Event) (c : Component) : Component :=
  match ev with
  | ProblemDetailsInput v => set_problemDetails v c
  | InternalServerErrorDetailsInput v => set_internalServerErrorDetails v c
  | TwoFactorAuthToggleLoadingInput b => set_twoFactorAuthToggleLoading b c
  | AuthenticatorSetupInput v => set_authenticatorSetup v c
  | TimeoutFires => timeout_callback c
  | TwoFactorAuthToggle e => _onTwoFactorAuthToggle e c
  | CancelSetupWizard => _onCancelSetupWizard c
  | Finish2faSetup e => _onFinish2faSetup e c
  | GenerateNew2FaRecoveryCodes => _onGenerateNew2FaRecoveryCodes c
  | VerifyAuthenticator e => _onVerifyAuthenticator e c
  | UserCodesPanelClosed => _onUserCodesPanelClosed c
  end.

(** The handlers the view calls on a user action: the methods whose
    comment starts "Event handler when user ...". *)
Definition user_action (ev : Event) : bool :=
  match ev with
  | TwoFactorAuthToggle _ | CancelSetupWizard | Finish2faSetup _
  | GenerateNew2FaRecoveryCodes | VerifyAuthenticator _
  | UserCodesPanelClosed => true
  | _ => false
  end.

(** The handlers that call [_removeServerErrors]. *)
Definition clearing (ev : Event) : bool :=
  match ev with
  | TwoFactorAuthToggle _ | CancelSetupWizard
  | GenerateNew2FaRecoveryCodes | VerifyAuthenticator _
  | UserCodesPanelClosed => true
  | _ => false
  end.

(** The setters of the two error inputs. *)
Definition error_input (ev : Event) : bool :=
  match ev with
  | ProblemDetailsInput _ | InternalServerErrorDetailsInput _ => true
  | _ => false
  end.

Fixpoint run (evs : list Event) (c : Component) : Component :=
  match evs with
  | [] => c
  | ev :: rest => run rest (step ev c)
  end.

(** At most one of the two error slots holds something other than
    [null]. *)
Definition at_most_one_error (c : Component) : bool :=
  negb (Js.non_null (_problemDetails c)
        && Js.non_null (_internalServerErrorDetails c)).

(** Both slots are [null]. *)
Definition no_error (c : Component) : bool :=
  negb (Js.non_null (_problemDetails c))
  && negb (Js.non_null (_internalServerErrorDetails c)).

End TwoFactorAuthenticationComponent.

(* ================================================================= *)
(** ** Vocabulary of the statements *)

(** Is the action a [PersistSettings]? *)
Definition is_persist (a : Auth.Action) : bool :=
  match a with
  | Auth.PersistSettings _ => true
  | _ => false
  end.

(** The storage call by which a state is persisted. *)
Definition persisted (s : Model.AuthStateModel) : Ngxs.StorageCall :=
  Ngxs.setItem Ngxs.AUTH_KEY s.

(** The object the [signout] recipe leaves in the draft. *)
Definition signed_out (o : Model.AuthStateModel) : Model.AuthStateModel :=
  Model.mk false "" 0 (Model.rememberMe o) (Model.username o) false false false
           "" (Model.activeAuthType o) (Model.passwordResetCompleted o).

(** The object the [signin] recipe leaves in the draft, at time [now]. *)
Definition signed_in (now : Z) (p : Auth.SigninPayload) (o : Model.AuthStateModel)
  : Model.AuthStateModel :=
  Model.mk true (Auth.access_token (Auth.accessToken p))
           (DateFns.getUnixTime
              (DateFns.add_seconds (DateFns.at_ms now)
                 (Auth.expires_in (Auth.accessToken p))))
           (Model.rememberMe o) (Model.username o)
           (Model.is2StepVerificationRequired o)
           (Model.is2StepVerificationSuccessful o)
           (Model.isRedeemRecoveryCodeSuccessful o)
           (Auth.userId p) (Model.activeAuthType o)
           (Model.passwordResetCompleted o).

(** Sample inputs. *)
Module Sample.

(** A signed-out user who asked to be remembered. *)
Definition remembered : Model.AuthStateModel :=
  Model.mk false "" 0 true "bob@example.com" false false false ""
           Model.sign_in_active false.

(** A signed-in user half-way through every flow. *)
Definition busy : Model.AuthStateModel :=
  Model.mk true "jwt" 1700000000 true "bob@example.com" true true true "42"
           Model.forgot_password_active true.

Definition store_of (o : Model.AuthStateModel) : Store.Store :=
  Store.mkStore o [].

(** A token that lives [seconds] seconds. *)
Definition token (seconds : Z) : Auth.SigninPayload :=
  Auth.mkSigninPayload (Auth.mkAccessToken "jwt" seconds) "42".

Definition no_guard : Js.Value -> bool := fun _ => false.

Definition service : HttpStatusInterceptor.ServerErrorService :=
  HttpStatusInterceptor.mkService Js.undefined Js.undefined.

Definition problem : Js.Value :=
  Js.object [("status", Js.number 400); ("detail", Js.str "Invalid code.")].

Definition credentials : SignInContainerComponent.SigninUser :=
  SignInContainerComponent.mkSigninUser "a@b.com" "x" false.

Definition form : SignInContainerComponent.Component :=
  SignInContainerComponent.mkComponent (Some ["serverError"]).

(** The two-factor component showing a validation error. *)
Definition failed_verification : TwoFactorAuthenticationComponent.Component :=
  TwoFactorAuthenticationComponent.set_problemDetails problem
    (TwoFactorAuthenticationComponent.initial true).

End Sample.

(* ================================================================= *)
(** ** Sequences of dispatches and the persisted copy *)

Module Session.

(** Dispatching the actions of a script one after the other, each at its own
    time; [None] as soon as one dispatch fails. *)
Fixpoint run (script : list (Z * Auth.Action)) (s : Store.Store)
  : option Store.Store :=
  match script with
  | [] => Some s
  | (now, a) :: rest =>
      match Store.dispatch now a s with
      | Some s' => run rest s'
      | None => None
      end
  end.

(** The value last written under [AUTH_KEY] by a list of storage calls. *)
Fixpoint latest_persisted (calls : list Ngxs.StorageCall)
  : option Model.AuthStateModel :=
  match calls with
  | [] => None
  | call :: rest =>
      match latest_persisted rest with
      | Some later => Some later
      | None =>
          match call with
          | Ngxs.setItem Ngxs.AUTH_KEY value => Some value
          | _ => None
          end
      end
  end.

(** The storage holds a copy of the state the store holds. *)
Definition in_sync (s : Store.Store) : Prop :=
  latest_persisted (Store.localStorage s) = Some (Store.auth s).

(** No action of the script is a [PersistSettings]: those are dispatched by
    the handlers themselves. *)
Definition from_outside (script : list (Z * Auth.Action)) : bool :=
  forallb (fun step => negb (is_persist (snd step))) script.

(** The storage calls a dispatch of [a] may add: writes under [AUTH_KEY]
    and, for [Signout] only, the removal of [ACTIVE_UNTIL]. *)
Definition may_add (a : Auth.Action) (call : Ngxs.StorageCall) : bool :=
  match call with
  | Ngxs.setItem Ngxs.AUTH_KEY _ => true
  | Ngxs.removeItem Ngxs.ACTIVE_UNTIL =>
      match a with Auth.Signout => true | _ => false end
  | _ => false
  end.

(** The payload of the actions whose handler is the merging recipe alone. *)
Definition merged_payload (a : Auth.Action) : option Model.Partial :=
  match a with
  | Auth.UpdateRememberMeUsername p
  | Auth.SetCurrentUserId p
  | Auth.SwitchAuthType p
  | Auth.IsRedeemRecoveryCodeSuccessful p
  | Auth.PasswordResetCompleted p => Some p
  | _ => None
  end.

End Session.

(* ================================================================= *)
(** ** [HttpStatusInterceptor.intercept] *)

Module Intercept.
Import HttpStatusInterceptor.

(** What [next.handle(req.clone())] delivers: the events it emits and then
    either completion ([None]) or an error response. *)
Record Exchange := mkExchange {
  events : list Js.Value;
  failure : option HttpErrorResponse
}.

(** How the stream handed to the caller ends. *)
Inductive Ending :=
| completes
| never_ends
| errors (x : Thrown).

Record Delivered := mkDelivered {
  seen : list Js.Value;
  ending : Ending
}.

(** [intercept(req, next)]: [catchError] lets the events through and
    replaces an error by the observable [_handleError$] returns. *)
Definition intercept (guard : Js.Value -> bool) (service : ServerErrorService)
  (x : Exchange) : ServerErrorService * Delivered :=
  match failure x with
  | None => (service, mkDelivered (events x) completes)
  | Some e =>
      match _handleError guard service e with
      | (service', NEVER) => (service', mkDelivered (events x) never_ends)
      | (service', throwError t) => (service', mkDelivered (events x) (errors t))
      end
  end.

End Intercept.

(* ================================================================= *)
(** ** [TwoFactorAuthenticationComponent]: the error messages *)

Module TwoFactorMessages.
Import TwoFactorAuthenticationComponent.

(** [v.key]: a [TypeError] ([None]) on [null] and [undefined], the field of
    an object, [undefined] on the other primitives. *)
Definition property (key : string) (v : Js.Value) : option Js.Value :=
  match v with
  | Js.undefined | Js.null => None
  | _ => Some (Js.get key v)
  end.

Definition _getProblemDetailsErrorMessage (c : Component) : option Js.Value :=
  property "detail" (_problemDetails c).

Section Guard.

Variable implementsOdmWebApiException : Js.Value -> bool.

Definition _doesInternalServerErrorImplementOdmWebApiException (c : Component)
  : bool :=
  implementsOdmWebApiException (_internalServerErrorDetails c).

Definition _getInternalServerErrorMessage (c : Component) : option Js.Value :=
  if _doesInternalServerErrorImplementOdmWebApiException c
  then property "detail" (_internalServerErrorDetails c)
  else property "message" (_internalServerErrorDetails c).

End Guard.

End TwoFactorMessages.

(* ================================================================= *)
(** ** [TwoFactorAuthenticationSetupWizardComponent] *)

Module TwoFactorAuthenticationSetupWizardComponent.

(** [TwoFactorAuthenticationSetupResult]: the component reads [status] and
    hands the whole value on. *)
Record TwoFactorAuthenticationSetupResult := mkResult {
  status : string;
  rest : Js.Value
}.

Inductive Emitted :=
| verificationCodeSubmitted (code : Js.Value)
| cancelSetupWizardClicked
| finish2faSetupClicked (result : option TwoFactorAuthenticationSetupResult)
| serverErrorHandledEmitted (handled : bool).

(** The fields the setters and handlers touch.  The two [...Handled] flags
    are fields of the base class [AuthBase];
    [verificationCode_enabled] and [verificationCodeForm_value] are the state
    of the [verificationCodeForm] input; [stepper_next] counts the calls of
    [setupWizard.next()]; [timeouts] holds the results whose 1500 ms
    callback has not run yet, oldest first; a result that was never assigned
    is [None]. *)
Record Component := mkComponent {
  _problemDetails : Js.Value;
  _internalServerErrorDetails : Js.Value;
  _problemDetailsServerErrorHandled : bool;
  _internalServerErrorDetailsHandled : bool;
  _codeVerificationSucceeded : bool;
  _is2faSetupCompleted : bool;
  _twoFactorAuthenticationSetupResult : option TwoFactorAuthenticationSetupResult;
  _twoFactorAuthenticationSetup :
    option TwoFactorAuthenticationComponent.TwoFactorAuthenticationSetup;
  verificationCode_enabled : bool;
  verificationCodeForm_value : Js.Value;
  stepper_next : nat;
  timeouts : list TwoFactorAuthenticationSetupResult;
  emitted : list Emitted
}.

(** *** Input setters *)

Definition set_problemDetails (value : Js.Value) (c : Component) : Component :=
  mkComponent value Js.null false (_internalServerErrorDetailsHandled c)
    (_codeVerificationSucceeded c) (_is2faSetupCompleted c)
    (_twoFactorAuthenticationSetupResult c) (_twoFactorAuthenticationSetup c)
    (verificationCode_enabled c) (verificationCodeForm_value c)
    (stepper_next c) (timeouts c) (emitted c).

Definition set_internalServerErrorDetails (value : Js.Value) (c : Component)
  : Component :=
  mkComponent Js.null value (_problemDetailsServerErrorHandled c) false
    (_codeVerificationSucceeded c) (_is2faSetupCompleted c)
    (_twoFactorAuthenticationSetupResult c) (_twoFactorAuthenticationSetup c)
    (verificationCode_enabled c) (verificationCodeForm_value c)
    (stepper_next c) (timeouts c) (emitted c).

(** Only a result with status ['Succeeded'] has an effect: the two flags
    are set at once and the rest is deferred by 1500 ms. *)
Definition set_twoFactorAuthenticationSetupResult
  (value : TwoFactorAuthenticationSetupResult) (c : Component) : Component :=
  if String.eqb (status value) "Succeeded" then
    mkComponent (_problemDetails c) (_internalServerErrorDetails c)
      (_problemDetailsServerErrorHandled c) (_internalServerErrorDetailsHandled c)
      true true
      (_twoFactorAuthenticationSetupResult c) (_twoFactorAuthenticationSetup c)
      (verificationCode_enabled c) (verificationCodeForm_value c)
      (stepper_next c) (timeouts c ++ [value]) (emitted c)
  else c.

(** The deferred callback: [this.setupWizard.next()] and the assignment of
    the result. *)
Definition timeout_callback (c : Component) : Component :=
  match timeouts c with
  | [] => c
  | value :: later =>
      mkComponent (_problemDetails c) (_internalServerErrorDetails c)
        (_problemDetailsServerErrorHandled c) (_internalServerErrorDetailsHandled c)
        (_codeVerificationSucceeded c) (_is2faSetupCompleted c)
        (Some value) (_twoFactorAuthenticationSetup c)
        (verificationCode_enabled c) (verificationCodeForm_value c)
        (S (stepper_next c)) later (emitted c)
  end.

(** [value.authenticatorUri && value.sharedKey]: both strings non-empty. *)
Definition set_twoFactorAuthenticationSetup
  (value : TwoFactorAuthenticationComponent.TwoFactorAuthenticationSetup)
  (c : Component) : Component :=
  mkComponent (_problemDetails c) (_internalServerErrorDetails c)
    (_problemDetailsServerErrorHandled c) (_internalServerErrorDetailsHandled c)
    (_codeVerificationSucceeded c) (_is2faSetupCompleted c)
    (_twoFactorAuthenticationSetupResult c) (Some value)
    (if negb (String.eqb (TwoFactorAuthenticationComponent.authenticatorUri value) "")
        && negb (String.eqb (TwoFactorAuthenticationComponent.sharedKey value) "")
     then true else verificationCode_enabled c)
    (verificationCodeForm_value c)
    (stepper_next c) (timeouts c) (emitted c).

(** *** Handlers *)

Definition emit (e : Emitted) (c : Component) : Component :=
  mkComponent (_problemDetails c) (_internalServerErrorDetails c)
    (_problemDetailsServerErrorHandled c) (_internalServerErrorDetailsHandled c)
    (_codeVerificationSucceeded c) (_is2faSetupCompleted c)
    (_twoFactorAuthenticationSetupResult c) (_twoFactorAuthenticationSetup c)
    (verificationCode_enabled c) (verificationCodeForm_value c)
    (stepper_next c) (timeouts c) (emitted c ++ [e]).

Definition _onVerificationCodeSubmitted (c : Component) : Component :=
  let code := verificationCodeForm_value c in
  emit (verificationCodeSubmitted code) c.

Definition _onFinishSetup (c : Component) : Component :=
  emit (finish2faSetupClicked (_twoFactorAuthenticationSetupResult c)) c.

Definition _onCancelClicked (c : Component) : Component :=
  emit (serverErrorHandledEmitted true) (emit cancelSetupWizardClicked c).

(** *** The component as a transition system *)

Inductive Event :=
| ProblemDetailsInput (value : Js.Value)
| InternalServerErrorDetailsInput (value : Js.Value)
| SetupResultInput (value : TwoFactorAuthenticationSetupResult)
| SetupInput (value : TwoFactorAuthenticationComponent.TwoFactorAuthenticationSetup)
| TimeoutFires
| VerificationCodeSubmitted
| FinishSetup
| CancelClicked.

Definition step (ev : Event) (c : Component) : Component :=
  match ev with
  | ProblemDetailsInput v => set_problemDetails v c
  | InternalServerErrorDetailsInput v => set_internalServerErrorDetails v c
  | SetupResultInput v => set_twoFactorAuthenticationSetupResult v c
  | SetupInput v => set_twoFactorAuthenticationSetup v c
  | TimeoutFires => timeout_callback c
  | VerificationCodeSubmitted => _onVerificationCodeSubmitted c
  | FinishSetup => _onFinishSetup c
  | CancelClicked => _onCancelClicked c
  end.

Fixpoint run (evs : list Event) (c : Component) : Component :=
  match evs with
  | [] => c
  | ev :: later => run later (step ev c)
  end.

End TwoFactorAuthenticationSetupWizardComponent.

(** Is the event an [authenticatorSetup] input whose [authenticatorUri] and
    [sharedKey] are both non-empty? *)
Definition opens_wizard (ev : TwoFactorAuthenticationComponent.Event) : bool :=
  match ev with
  | TwoFactorAuthenticationComponent.AuthenticatorSetupInput value =>
      negb (String.eqb (TwoFactorAuthenticationComponent.authenticatorUri value) "")
      && negb (String.eqb (TwoFactorAuthenticationComponent.sharedKey value) "")
  | _ => false
  end.

(** Further sample inputs. *)
Module Scenario.

(** A store whose storage already holds a copy of the state. *)
Definition synced : Store.Store :=
  Store.mkStore Sample.remembered [persisted Sample.remembered].

Definition script : list (Z * Auth.Action) :=
  [(1500, Auth.Signin (Sample.token 3600));
   (2000, Auth.Is2StepVerificationRequired
            (Auth.is2StepVerificationRequired_payload true));
   (9000, Auth.Signout);
   (9001, Auth.KeepOrRemoveRememberMeUsername)].

(** The payload [{ userId: '42' }]. *)
Definition user_id_payload : Model.Partial :=
  Model.mkPartial None None None None None None None None (Some "42") None None.

(** A guard that accepts the objects carrying a [detail]. *)
Definition detail_guard (v : Js.Value) : bool :=
  match Js.get "detail" v with
  | Js.undefined => false
  | _ => true
  end.

(** The two-factor component with its slide toggle rendered and switched
    on by the user, while the server still has two-factor disabled. *)
Definition toggled_on : TwoFactorAuthenticationComponent.Component :=
  TwoFactorAuthenticationComponent.mkComponent
    Js.null Js.null false false None false (Some true) 0 [].

Definition succeeded
  : TwoFactorAuthenticationSetupWizardComponent.TwoFactorAuthenticationSetupResult :=
  TwoFactorAuthenticationSetupWizardComponent.mkResult "Succeeded"
    (Js.object [("recoveryCodes", Js.str "a1b2 c3d4")]).

Definition wizard : TwoFactorAuthenticationSetupWizardComponent.Component :=
  TwoFactorAuthenticationSetupWizardComponent.mkComponent
    Js.undefined Js.undefined false false false false None None false
    (Js.object [("verificationCode", Js.str "123456")]) 0 [] [].

End Scenario.

(* ================================================================= *)
(** * Properties *)

(** ** The dispatcher *)

(** The handler of [PersistSettings] writes its payload under [AUTH_KEY],
    leaves the state alone and queues nothing. *)
Lemma handle_persist (now : Z) (payload : Model.AuthStateModel) (s : Store.Store) :
  Store.handle now (Auth.PersistSettings payload) s =
  Some (Store.mkStore (Store.auth s) (Store.localStorage s ++ [persisted payload]), []).
Proof. reflexivity. Qed.

(** No handler of [AuthState] throws, and what the handlers of an action
    queue are [PersistSettings] actions only: [Store.dispatch], which handles
    the queue once, leaves nothing unhandled. *)
Lemma handle_queues_persist (now : Z) (a : Auth.Action) (s : Store.Store) :
  exists s' queue,
    Store.handle now a s = Some (s', queue) /\ forallb is_persist queue = true.
Proof.
  destruct a; cbv [Store.handle AuthState.handlers Store.run_all]; cbn;
    eexists; eexists; (split; [reflexivity | reflexivity]).
Qed.

Lemma drain_persist (now : Z) (queue : list Auth.Action) :
  forallb is_persist queue = true ->
  forall s, exists s', Store.drain now queue s = Some s'.
Proof.
  induction queue as [|a rest IH]; intros Hq s.
  - exists s. reflexivity.
  - cbn in Hq. apply andb_prop in Hq. destruct Hq as [Ha Hrest].
    destruct a; try discriminate.
    cbn [Store.drain]. rewrite handle_persist. apply IH, Hrest.
Qed.

(** Dispatching always completes. *)
Lemma dispatch_total (now : Z) (a : Auth.Action) (s : Store.Store) :
  exists s', Store.dispatch now a s = Some s'.
Proof.
  destruct (handle_queues_persist now a s) as (s1 & queue & Hh & Hq).
  unfold Store.dispatch. rewrite Hh. apply drain_persist, Hq.
Qed.

(** ** immer recipes *)

(** The recipe of [rememberMe] re-binds [draft] and then assigns to the new
    object, which it does not return: the proxy is never written to and
    [produce] hands back the base state. *)
Lemma rememberMe_recipe_keeps_base (payload : Model.Partial) (base : Model.AuthStateModel) :
  Immer.produce
    (Immer.rebind_spread payload ;;
     Immer.assign (Model.set_username "") ;;
     Immer.no_return) base
  = Immer.Next base.
Proof. reflexivity. Qed.

(** The recipe of the merging handlers returns the re-bound object. *)
Lemma merge_payload_spreads (payload : Model.Partial) (base : Model.AuthStateModel) :
  Immer.produce (AuthState.merge_payload payload) base
  = Immer.Next (Model.spread base payload).
Proof. reflexivity. Qed.

(** ** What each dispatch does to the store *)

Lemma dispatch_RememberMeOptionChange now payload s :
  Store.dispatch now (Auth.RememberMeOptionChange payload) s =
  Some (Store.mkStore (Store.auth s)
          (Store.localStorage s ++ [persisted (Store.auth s)])).
Proof. reflexivity. Qed.

Lemma dispatch_Signout now s :
  Store.dispatch now Auth.Signout s =
  Some (Store.mkStore (signed_out (Store.auth s))
          ((Store.localStorage s ++ [Ngxs.removeItem Ngxs.ACTIVE_UNTIL])
             ++ [persisted (signed_out (Store.auth s))])).
Proof. reflexivity. Qed.

Lemma dispatch_Signin now payload s :
  Store.dispatch now (Auth.Signin payload) s =
  Some (Store.mkStore (signed_in now payload (Store.auth s))
          (Store.localStorage s ++ [persisted (signed_in now payload (Store.auth s))])).
Proof. reflexivity. Qed.

Lemma dispatch_Is2StepVerificationRequired now payload s :
  Store.dispatch now (Auth.Is2StepVerificationRequired payload) s = Some s.
Proof. destruct s. reflexivity. Qed.

(** Both handlers decorated with [Auth.Is2StepVerificationSuccessful] run,
    each merging the payload and each persisting. *)
Lemma dispatch_Is2StepVerificationSuccessful now payload s :
  let s1 := Model.spread (Store.auth s) payload in
  let s2 := Model.spread s1 payload in
  Store.dispatch now (Auth.Is2StepVerificationSuccessful payload) s =
  Some (Store.mkStore s2
          ((Store.localStorage s ++ [persisted s1]) ++ [persisted s2])).
Proof. reflexivity. Qed.

(** Run on the payload its signature names, [is2StepVerificationRequired]
    does set the field. *)
Lemma is2StepVerificationRequired_handler_sets_field now b c :
  exists c',
    AuthState.is2StepVerificationRequired
      (Auth.is2StepVerificationRequired_payload b) now c = Some (tt, c')
    /\ Model.is2StepVerificationRequired (Ngxs.state c') = b.
Proof. eexists. split; reflexivity. Qed.

Lemma dispatch_KeepOrRemoveRememberMeUsername now s :
  let o := Store.auth s in
  let o' := Model.set_username (if Model.rememberMe o then Model.username o else "") o in
  Store.dispatch now Auth.KeepOrRemoveRememberMeUsername s =
  Some (Store.mkStore o' (Store.localStorage s ++ [persisted o'])).
Proof. reflexivity. Qed.

(** With the remember-me choice left as it was, reconciling afterwards keeps
    a remembered username too. *)
Example change_rememberMe_then_reconcile :
  exists s1 s2,
    Store.dispatch 0 (Auth.RememberMeOptionChange (Auth.rememberMe_payload false))
                   (Sample.store_of Sample.remembered) = Some s1
    /\ Store.dispatch 0 Auth.KeepOrRemoveRememberMeUsername s1 = Some s2
    /\ AuthState.selectUsername (Store.auth s2) = "bob@example.com".
Proof.
  rewrite dispatch_RememberMeOptionChange. eexists. eexists.
  split; [reflexivity|].
  rewrite dispatch_KeepOrRemoveRememberMeUsername.
  split; reflexivity.
Qed.

(** ** The session state *)

(** C1 (the code departs from the claim).  ChangeRememberMe should set
    [rememberMe] to the payload and clear [username].  Evaluated on a state
    that remembers "bob@example.com", with payload [false]: the dispatch
    completes and the state still has [rememberMe = true] and the old
    username; only the unchanged state is persisted. *)
Theorem C1_rememberMe_option_change_keeps_state :
  exists s',
    Store.dispatch 0 (Auth.RememberMeOptionChange (Auth.rememberMe_payload false))
                   (Sample.store_of Sample.remembered) = Some s'
    /\ Model.rememberMe (Store.auth s') = true
    /\ Model.username (Store.auth s') = "bob@example.com"
    /\ Store.auth s' = Sample.remembered
    /\ Store.localStorage s' = [persisted Sample.remembered].
Proof. eexists. repeat split. Qed.

(** C2 (the code departs from the claim).  SetTwoStepRequired should set
    [is2StepVerificationRequired] to the payload.  Evaluated on the default
    state, with payload [true]: no handler is registered for the
    [Is2StepVerificationRequired] action, the store is left as it was and
    the field stays [false]. *)
Theorem C2_two_step_required_dispatch_has_no_handler :
  AuthState.handlers
    (Auth.Is2StepVerificationRequired (Auth.is2StepVerificationRequired_payload true))
  = []
  /\ exists s',
       Store.dispatch 0
         (Auth.Is2StepVerificationRequired (Auth.is2StepVerificationRequired_payload true))
         (Sample.store_of Model.defaults) = Some s'
       /\ s' = Sample.store_of Model.defaults
       /\ Model.is2StepVerificationRequired (Store.auth s') = false.
Proof. split; [reflexivity | eexists; repeat split]. Qed.

(** C4.  Whatever the state before, the SignOut transition completes and
    leaves [isAuthenticated = false], [access_token = ''], [expires_at = 0],
    [userId = ''] and the three flags [is2StepVerificationRequired],
    [is2StepVerificationSuccessful], [isRedeemRecoveryCodeSuccessful]
    false. *)
Theorem C4_signout_resets_session (now : Z) (s : Store.Store) :
  exists s',
    Store.dispatch now Auth.Signout s = Some s'
    /\ Model.isAuthenticated (Store.auth s') = false
    /\ Model.access_token (Store.auth s') = ""
    /\ Model.expires_at (Store.auth s') = 0
    /\ Model.userId (Store.auth s') = ""
    /\ Model.is2StepVerificationRequired (Store.auth s') = false
    /\ Model.is2StepVerificationSuccessful (Store.auth s') = false
    /\ Model.isRedeemRecoveryCodeSuccessful (Store.auth s') = false.
Proof.
  rewrite dispatch_Signout. eexists. split; [reflexivity|].
  cbn. repeat split.
Qed.

(** C5.  Whatever the state before, the SignOut transition leaves
    [rememberMe], [username] and [activeAuthType] as they were. *)
Theorem C5_signout_keeps_preferences (now : Z) (s : Store.Store) :
  exists s',
    Store.dispatch now Auth.Signout s = Some s'
    /\ Model.rememberMe (Store.auth s') = Model.rememberMe (Store.auth s)
    /\ Model.username (Store.auth s') = Model.username (Store.auth s)
    /\ Model.activeAuthType (Store.auth s') = Model.activeAuthType (Store.auth s).
Proof.
  rewrite dispatch_Signout. eexists. split; [reflexivity|].
  cbn. repeat split.
Qed.

(** ** Expiry *)

(** The expiry date of a state: [expires_at] seconds after the epoch when
    that is a valid date, the epoch itself for [NaN]. *)
Lemma _selectExpiresAt_cases (st : Model.AuthStateModel) :
  AuthState._selectExpiresAt st =
  match Model.expires_at st with
  | Model.Int seconds =>
      if DateFns.in_range (seconds * 1000)
      then DateFns.at_ms (seconds * 1000)
      else DateFns.Invalid_Date
  | Model.NaN => DateFns.at_ms 0
  end.
Proof.
  unfold AuthState._selectExpiresAt.
  destruct (Model.expires_at st) as [seconds|]; [|reflexivity].
  cbn [Model.or_zero]. destruct (Z.eqb_spec seconds 0) as [->|_]; reflexivity.
Qed.

(** The whole second that holds [now], plus [l]. *)
Lemma signin_expiry_seconds (now l : Z) :
  (now + l * 1000) / 1000 = now / 1000 + l.
Proof. apply Z.div_add; lia. Qed.



(** The expiry a sign-in at [now] stores. *)
Lemma signin_stores_expiry (now : Z) payload o :
  let l := Auth.expires_in (Auth.accessToken payload) in
  Model.expires_at (signed_in now payload o) =
  if DateFns.in_range (now + l * 1000)
  then Model.Int (now / 1000 + l)
  else Model.NaN.
Proof.
  cbv zeta. cbn [signed_in Model.expires_at DateFns.add_seconds].
  unfold DateFns.new_Date_of.
  destruct (DateFns.in_range _); cbn [DateFns.getUnixTime];
    [rewrite signin_expiry_seconds|]; reflexivity.
Qed.



(** *** Memoised reads *)






(** The quotient of a difference in milliseconds by 1000, made positive. *)
Lemma Qabs_ms_to_seconds (d : Z) :
  (Qabs (inject_Z d / inject_Z 1000) == inject_Z (Z.abs d) / inject_Z 1000)%Q.
Proof.
  unfold Qdiv. rewrite Qabs_Qmult.
  assert (H : (Qabs (/ inject_Z 1000) == / inject_Z 1000)%Q)
    by (apply Qabs_pos; discriminate).
  rewrite H. reflexivity.
Qed.

(** What the method [selectExpiresInSeconds] computes. *)
Lemma selectExpiresInSeconds_method (now : Z) (st : Model.AuthStateModel) :
  AuthState.selectExpiresInSeconds now st =
  match AuthState._selectExpiresAt st with
  | DateFns.at_ms expiry =>
      Some (Qabs (inject_Z (expiry - now) / inject_Z 1000))
  | DateFns.Invalid_Date => None
  end.
Proof. reflexivity. Qed.

(** Two seconds and a half after an expiry at second 10, and as long
    before it, on reads that miss. *)
Example selectExpiresInSeconds_past_and_future :
  exists past future : Q,
    fst (Selector.selectExpiresInSeconds 12500
           (Selector.mkObject 1 (Model.set_expires_at 10 Model.defaults)) None)
    = Some past
    /\ fst (Selector.selectExpiresInSeconds 7500
              (Selector.mkObject 1 (Model.set_expires_at 10 Model.defaults)) None)
       = Some future
    /\ (past == 5 # 2)%Q /\ (future == 5 # 2)%Q.
Proof. eexists. eexists. repeat split. Qed.

(** C9, as stated, fails: with the state object unchanged, a read one
    second before an expiry at second 10 gives 1, and so does the read
    made four seconds later, where the distance to the expiry is 3.  And
    for an [expires_at] beyond the range of dates the result is [NaN]. *)
Lemma C9_second_read_is_stale :
  (exists first second : Q,
     Selector.reads AuthState.selectExpiresInSeconds [9000; 13000]
       (Selector.mkObject 1 (Model.set_expires_at 10 Model.defaults)) None
     = [Some first; Some second]
     /\ (first == 1)%Q /\ (second == 1)%Q
     /\ ~ (second == inject_Z (Z.abs (10 * 1000 - 13000)) / inject_Z 1000)%Q)
  /\ fst (Selector.selectExpiresInSeconds 9000
            (Selector.mkObject 1
               (Model.set_expires_at 10000000000000 Model.defaults)) None)
     = None.
Proof.
  split; [|reflexivity].
  eexists. eexists. split; [reflexivity|].
  split; [reflexivity|]. split; [reflexivity|].
  intros H. discriminate H.
Qed.

(** C9, amended.  For every state and every current time, a read of
    [selectExpiresInSeconds] that misses the selector's cache is the
    absolute value of the expiry date minus the current time, in seconds
    (the millisecond difference over 1000), never negative, also once the
    expiry has passed; the expiry date being [expires_at] seconds after the
    epoch (the epoch itself for [NaN]), and the result [NaN] when that is
    beyond the range of dates.  A read that finds the state object in the
    cache returns the cached result, whatever the current time. *)
Theorem C9_expires_in_seconds_is_absolute_difference
  (now : Z) (st : Model.AuthStateModel) (id : nat)
  (cache : Selector.Cache (option Q)) :
  let state := Selector.mkObject id st in
  let result := fst (Selector.selectExpiresInSeconds now state cache) in
  (Selector.hits cache state = false ->
   match AuthState._selectExpiresAt st with
   | DateFns.at_ms expiry =>
       exists seconds : Q,
         result = Some seconds
         /\ (seconds == inject_Z (Z.abs (expiry - now)) / inject_Z 1000)%Q
         /\ (0 <= seconds)%Q
   | DateFns.Invalid_Date => result = None
   end)
  /\ (forall value, cache = Some (id, value) -> result = value)
  /\ AuthState._selectExpiresAt st =
     match Model.expires_at st with
     | Model.Int seconds =>
         if DateFns.in_range (seconds * 1000)
         then DateFns.at_ms (seconds * 1000)
         else DateFns.Invalid_Date
     | Model.NaN => DateFns.at_ms 0
     end.
Proof.
  cbv zeta. split; [|split; [|apply _selectExpiresAt_cases]].
  - intros Hm.
    assert (Hread : fst (Selector.selectExpiresInSeconds now
                           (Selector.mkObject id st) cache)
                    = AuthState.selectExpiresInSeconds now st).
    { unfold Selector.selectExpiresInSeconds, Selector.read.
      destruct cache as [[id' value]|]; [|reflexivity].
      cbn in Hm. cbn [Selector.identity]. rewrite Hm. reflexivity. }
    rewrite Hread, selectExpiresInSeconds_method.
    destruct (AuthState._selectExpiresAt st) as [expiry|]; [|reflexivity].
    eexists. split; [reflexivity|].
    split; [apply Qabs_ms_to_seconds | apply Qabs_nonneg].
  - intros value ->. unfold Selector.selectExpiresInSeconds, Selector.read.
    cbn [Selector.identity]. rewrite Nat.eqb_refl. reflexivity.
Qed.

Lemma C9_expires_in_seconds_is_absolute_difference_witness :
  Selector.hits (@None (nat * option Q))
    (Selector.mkObject 1 (Model.set_expires_at 10 Model.defaults)) = false
  /\ exists seconds : Q,
       fst (Selector.selectExpiresInSeconds 12500
              (Selector.mkObject 1 (Model.set_expires_at 10 Model.defaults)) None)
       = Some seconds
       /\ (seconds == inject_Z (Z.abs (10000 - 12500)) / inject_Z 1000)%Q
       /\ (0 <= seconds)%Q.
Proof.
  split; [reflexivity|].
  exact (proj1 (C9_expires_in_seconds_is_absolute_difference
                  12500 (Model.set_expires_at 10 Model.defaults) 1 None)
               eq_refl).
Defined.

(** ** Error classification *)

(** C6.  For every response body: a failure with status 400 stores the body
    as the latest problem details and comes back as [NEVER], so that nothing
    (no value and no failure) reaches the caller; a failure with status 401
    or 403 stores the body too and is thrown on to the caller.  The other
    slot of the service is left alone. *)
Theorem C6_validation_absorbed_auth_rejection_thrown
  (guard : Js.Value -> bool)
  (service : HttpStatusInterceptor.ServerErrorService) (body : Js.Value) :
  let stored :=
    HttpStatusInterceptor.mkService body
      (HttpStatusInterceptor.internalServerErrorDetails service) in
  let e (status : Z) := HttpStatusInterceptor.mkResponse status body in
  HttpStatusInterceptor._handleError guard service (e 400)
    = (stored, HttpStatusInterceptor.NEVER)
  /\ HttpStatusInterceptor.propagates
       (snd (HttpStatusInterceptor._handleError guard service (e 400))) = false
  /\ HttpStatusInterceptor._handleError guard service (e 401)
    = (stored, HttpStatusInterceptor.throwError (HttpStatusInterceptor.response (e 401)))
  /\ HttpStatusInterceptor._handleError guard service (e 403)
    = (stored, HttpStatusInterceptor.throwError (HttpStatusInterceptor.response (e 403))).
Proof. repeat split. Qed.

(** C7, as stated, fails: the message of the error built for status 504 is
    not the string "server is down". *)
Lemma C7_message_is_not_lowercase :
  Js.get "message"
    (HttpStatusInterceptor.internalServerErrorDetails
       (fst (HttpStatusInterceptor._handleError Sample.no_guard Sample.service
               (HttpStatusInterceptor.mkResponse 504 Js.null))))
  <> Js.str "server is down".
Proof. cbn. discriminate. Qed.

(** C7, amended.  For every response body, a failure with status 504 yields
    an internal-server-error object with status 504 whose message is the
    fixed string "Server is down." (capital S, full stop), stores it as the
    latest internal server error and throws it on to the caller. *)
Theorem C7_gateway_timeout_message
  (guard : Js.Value -> bool)
  (service : HttpStatusInterceptor.ServerErrorService) (body : Js.Value) :
  exists error : Js.Value,
    HttpStatusInterceptor._handleError guard service
      (HttpStatusInterceptor.mkResponse 504 body)
    = (HttpStatusInterceptor.mkService
         (HttpStatusInterceptor.problemDetails service) error,
       HttpStatusInterceptor.throwError (HttpStatusInterceptor.details error))
    /\ Js.get "message" error = Js.str "Server is down."
    /\ Js.get "status" error = Js.number 504.
Proof. eexists. repeat split. Qed.

(** ** Submitting the sign-in form *)

(** C8.  For every submitted model, [_onSigninSubmitted] calls
    [signinUser] if and only if both [email] and [password] differ from the
    empty string, and then calls it once, with the model; when either is the
    empty string it makes no call at all. *)
Theorem C8_signin_dispatched_iff_credentials_present
  (model : SignInContainerComponent.SigninUser)
  (c : SignInContainerComponent.Component) :
  let calls := snd (SignInContainerComponent._onSigninSubmitted model c) in
  (In (SignInContainerComponent.signinUser model) calls
   <-> SignInContainerComponent.email model <> ""
       /\ SignInContainerComponent.password model <> "")
  /\ (SignInContainerComponent.email model <> ""
      /\ SignInContainerComponent.password model <> ""
      -> calls = [SignInContainerComponent.signinUser model])
  /\ (SignInContainerComponent.email model = ""
      \/ SignInContainerComponent.password model = ""
      -> calls = []).
Proof.
  unfold SignInContainerComponent._onSigninSubmitted.
  destruct (String.eqb_spec (SignInContainerComponent.email model) "") as [He|He];
    destruct (String.eqb_spec (SignInContainerComponent.password model) "") as [Hp|Hp];
    cbn; repeat split; intros; try reflexivity; try tauto;
    try (left; reflexivity).
Qed.

Lemma C8_signin_dispatched_iff_credentials_present_witness :
  SignInContainerComponent.email Sample.credentials <> ""
  /\ SignInContainerComponent.password Sample.credentials <> ""
  /\ snd (SignInContainerComponent._onSigninSubmitted Sample.credentials Sample.form)
     = [SignInContainerComponent.signinUser Sample.credentials].
Proof.
  assert (H : SignInContainerComponent.email Sample.credentials <> ""
              /\ SignInContainerComponent.password Sample.credentials <> "")
    by (split; discriminate).
  split; [apply H | split; [apply H|]].
  apply (proj1 (proj2 (C8_signin_dispatched_iff_credentials_present
                         Sample.credentials Sample.form))).
  exact H.
Defined.

(** ** The error slots of the two-factor component *)

(** Whatever the component held, an error-input setter or a clearing
    handler leaves at most one slot non-null. *)
Lemma step_establishes_exclusive (ev : TwoFactorAuthenticationComponent.Event)
  (c : TwoFactorAuthenticationComponent.Component) :
  TwoFactorAuthenticationComponent.error_input ev
    || TwoFactorAuthenticationComponent.clearing ev = true ->
  TwoFactorAuthenticationComponent.at_most_one_error
    (TwoFactorAuthenticationComponent.step ev c) = true.
Proof.
  unfold TwoFactorAuthenticationComponent.at_most_one_error.
  destruct ev; cbn; intros H; try discriminate H;
    rewrite ?andb_false_r; reflexivity.
Qed.

(** The other setters, the deferred callback and [_onFinish2faSetup] do not
    touch the slots, so no step of the component breaks the property. *)
Lemma step_preserves_exclusive (ev : TwoFactorAuthenticationComponent.Event)
  (c : TwoFactorAuthenticationComponent.Component) :
  TwoFactorAuthenticationComponent.at_most_one_error c = true ->
  TwoFactorAuthenticationComponent.at_most_one_error
    (TwoFactorAuthenticationComponent.step ev c) = true.
Proof.
  intros Hc.
  destruct (TwoFactorAuthenticationComponent.error_input ev
            || TwoFactorAuthenticationComponent.clearing ev) eqn:E.
  - apply step_establishes_exclusive, E.
  - revert Hc. unfold TwoFactorAuthenticationComponent.at_most_one_error.
    destruct ev; try discriminate E; cbn; try (intros Hc; exact Hc).
    + unfold TwoFactorAuthenticationComponent.set_authenticatorSetup.
      destruct (negb _ && negb _); cbn; intros Hc; exact Hc.
    + unfold TwoFactorAuthenticationComponent.timeout_callback.
      destruct (TwoFactorAuthenticationComponent.timeouts c); cbn; intros Hc; exact Hc.
Qed.

Lemma run_preserves_exclusive (evs : list TwoFactorAuthenticationComponent.Event) :
  forall c,
    TwoFactorAuthenticationComponent.at_most_one_error c = true ->
    TwoFactorAuthenticationComponent.at_most_one_error
      (TwoFactorAuthenticationComponent.run evs c) = true.
Proof.
  induction evs as [|ev rest IH]; intros c Hc; cbn.
  - exact Hc.
  - apply IH, step_preserves_exclusive, Hc.
Qed.

(** C10, as stated, fails: [_onFinish2faSetup] is a handler of a user
    action, and after it a problem-details slot that was set is still set. *)
Lemma C10_finish_setup_keeps_error :
  TwoFactorAuthenticationComponent.user_action
    (TwoFactorAuthenticationComponent.Finish2faSetup Js.null) = true
  /\ TwoFactorAuthenticationComponent._problemDetails
       (TwoFactorAuthenticationComponent._onFinish2faSetup Js.null
          Sample.failed_verification) = Sample.problem
  /\ TwoFactorAuthenticationComponent.no_error
       (TwoFactorAuthenticationComponent._onFinish2faSetup Js.null
          Sample.failed_verification) = false.
Proof. repeat split. Qed.

(** C10, amended.  After either error-input setter or any handler that
    clears the errors, at most one of [_problemDetails] and
    [_internalServerErrorDetails] is non-null: assigning the
    [problemDetails] input nulls the internal-server-error slot and stores
    the value, assigning the [internalServerErrorDetails] input nulls the
    problem-details slot and stores the value, and the user action handlers
    [_onTwoFactorAuthToggle], [_onCancelSetupWizard],
    [_onGenerateNew2FaRecoveryCodes], [_onVerifyAuthenticator] and
    [_onUserCodesPanelClosed] null both.  The remaining user action handler,
    [_onFinish2faSetup], leaves both slots as they were. *)
Theorem C10_error_slots_exclusive
  (c : TwoFactorAuthenticationComponent.Component) (v event : Js.Value) :
  let pd := TwoFactorAuthenticationComponent._problemDetails in
  let ise := TwoFactorAuthenticationComponent._internalServerErrorDetails in
  let exclusive := TwoFactorAuthenticationComponent.at_most_one_error in
  let cleared (c' : TwoFactorAuthenticationComponent.Component) :=
    pd c' = Js.null /\ ise c' = Js.null /\ exclusive c' = true in
  (let c' := TwoFactorAuthenticationComponent.set_problemDetails v c in
   pd c' = v /\ ise c' = Js.null /\ exclusive c' = true)
  /\ (let c' := TwoFactorAuthenticationComponent.set_internalServerErrorDetails v c in
      pd c' = Js.null /\ ise c' = v /\ exclusive c' = true)
  /\ cleared (TwoFactorAuthenticationComponent._onTwoFactorAuthToggle event c)
  /\ cleared (TwoFactorAuthenticationComponent._onCancelSetupWizard c)
  /\ cleared (TwoFactorAuthenticationComponent._onGenerateNew2FaRecoveryCodes c)
  /\ cleared (TwoFactorAuthenticationComponent._onVerifyAuthenticator event c)
  /\ cleared (TwoFactorAuthenticationComponent._onUserCodesPanelClosed c)
  /\ (let c' := TwoFactorAuthenticationComponent._onFinish2faSetup event c in
      pd c' = pd c /\ ise c' = ise c).
Proof.
  cbv zeta. unfold TwoFactorAuthenticationComponent.at_most_one_error.
  cbn. rewrite andb_false_r. repeat split.
Qed.

(* ================================================================= *)
(** * Further properties of the code *)

(** ** Write-through persistence *)

Lemma latest_persisted_app (l m : list Ngxs.StorageCall) :
  Session.latest_persisted (l ++ m) =
  match Session.latest_persisted m with
  | Some later => Some later
  | None => Session.latest_persisted l
  end.
Proof.
  induction l as [|call l IH]; cbn.
  - destruct (Session.latest_persisted m); reflexivity.
  - rewrite IH. destruct (Session.latest_persisted m); reflexivity.
Qed.

Lemma latest_persisted_last (l : list Ngxs.StorageCall) (o : Model.AuthStateModel) :
  Session.latest_persisted (l ++ [persisted o]) = Some o.
Proof. rewrite latest_persisted_app. reflexivity. Qed.

(** The actions handled by the merging recipe alone. *)
Lemma dispatch_merging (a : Auth.Action) (p : Model.Partial) now s :
  Session.merged_payload a = Some p ->
  Store.dispatch now a s =
  Some (Store.mkStore (Model.spread (Store.auth s) p)
          (Store.localStorage s ++ [persisted (Model.spread (Store.auth s) p)])).
Proof.
  intros Ha. destruct a; try discriminate Ha; injection Ha as ->; reflexivity.
Qed.

(** A dispatch from outside either leaves the store as it was or ends by
    persisting the state it leaves. *)
Lemma dispatch_ends_persisting (now : Z) (a : Auth.Action) (s : Store.Store) :
  is_persist a = false ->
  exists s',
    Store.dispatch now a s = Some s'
    /\ (s' = s
        \/ exists before : list Ngxs.StorageCall,
             Store.localStorage s' = (before ++ [persisted (Store.auth s')])%list).
Proof.
  intros Ha.
  destruct (Session.merged_payload a) as [p|] eqn:Hm.
  - rewrite (dispatch_merging a p now s Hm). eexists. split; [reflexivity|].
    right. exists (Store.localStorage s). reflexivity.
  - destruct a; try discriminate Ha; try discriminate Hm.
    + rewrite dispatch_RememberMeOptionChange. eexists. split; [reflexivity|].
      right. exists (Store.localStorage s). reflexivity.
    + rewrite dispatch_Signin. eexists. split; [reflexivity|].
      right. exists (Store.localStorage s). reflexivity.
    + rewrite dispatch_Signout. eexists. split; [reflexivity|].
      right. exists (Store.localStorage s ++ [Ngxs.removeItem Ngxs.ACTIVE_UNTIL])%list.
      reflexivity.
    + rewrite dispatch_KeepOrRemoveRememberMeUsername. eexists.
      split; [reflexivity|].
      right. exists (Store.localStorage s). reflexivity.
    + rewrite dispatch_Is2StepVerificationSuccessful. eexists.
      split; [reflexivity|].
      right.
      exists (Store.localStorage s
              ++ [persisted (Model.spread (Store.auth s) payload)])%list.
      reflexivity.
    + exists s. split; [apply dispatch_Is2StepVerificationRequired | left; reflexivity].
Qed.

(** X1.  Whatever sequence of actions is dispatched from outside, at
    whatever times, every dispatch completes, and if the storage held a copy
    of the state before, it holds a copy of the state afterwards. *)
Theorem run_keeps_storage_in_sync (script : list (Z * Auth.Action)) :
  Session.from_outside script = true ->
  forall s : Store.Store,
    Session.in_sync s ->
    exists s', Session.run script s = Some s' /\ Session.in_sync s'.
Proof.
  induction script as [|[now a] rest IH]; intros Hout s Hs.
  - exists s. split; [reflexivity | exact Hs].
  - cbn in Hout. apply andb_prop in Hout. destruct Hout as [Ha Hrest].
    apply negb_true_iff in Ha.
    destruct (dispatch_ends_persisting now a s Ha) as (s1 & Hd & Hcase).
    cbn [Session.run]. rewrite Hd. apply IH; [exact Hrest|].
    destruct Hcase as [-> | [before Hb]]; [exact Hs|].
    unfold Session.in_sync. rewrite Hb. apply latest_persisted_last.
Qed.

Lemma run_keeps_storage_in_sync_witness :
  Session.from_outside Scenario.script = true
  /\ Session.in_sync Scenario.synced
  /\ exists s', Session.run Scenario.script Scenario.synced = Some s'
                /\ Session.in_sync s'.
Proof.
  assert (Hout : Session.from_outside Scenario.script = true) by reflexivity.
  assert (Hs : Session.in_sync Scenario.synced) by reflexivity.
  split; [exact Hout | split; [exact Hs|]].
  exact (run_keeps_storage_in_sync Scenario.script Hout Scenario.synced Hs).
Defined.

(** X2.  A dispatch completes and only adds to the storage calls: writes
    under [AUTH_KEY] and, when the action is [Signout], the removal of
    [ACTIVE_UNTIL].  Nothing is ever removed from under [AUTH_KEY] and the
    calls made earlier are kept. *)
Theorem dispatch_only_adds_auth_writes (now : Z) (a : Auth.Action) (s : Store.Store) :
  exists (s' : Store.Store) (added : list Ngxs.StorageCall),
    Store.dispatch now a s = Some s'
    /\ Store.localStorage s' = (Store.localStorage s ++ added)%list
    /\ forallb (Session.may_add a) added = true.
Proof.
  destruct (Session.merged_payload a) as [p|] eqn:Hm.
  - rewrite (dispatch_merging a p now s Hm).
    eexists. exists [persisted (Model.spread (Store.auth s) p)].
    split; [reflexivity|]. split; reflexivity.
  - destruct a; try discriminate Hm.
    + rewrite dispatch_RememberMeOptionChange.
      eexists. exists [persisted (Store.auth s)].
      split; [reflexivity|]. split; reflexivity.
    + rewrite dispatch_Signin.
      eexists. exists [persisted (signed_in now payload (Store.auth s))].
      split; [reflexivity|]. split; reflexivity.
    + rewrite dispatch_Signout.
      eexists. exists [Ngxs.removeItem Ngxs.ACTIVE_UNTIL;
                       persisted (signed_out (Store.auth s))].
      split; [reflexivity|]. cbn [Store.localStorage].
      split; [rewrite <- app_assoc; reflexivity | reflexivity].
    + rewrite dispatch_KeepOrRemoveRememberMeUsername. cbv zeta.
      eexists. eexists. split; [reflexivity|]. split; reflexivity.
    + rewrite dispatch_Is2StepVerificationSuccessful. cbv zeta.
      eexists.
      exists [persisted (Model.spread (Store.auth s) payload);
              persisted (Model.spread (Model.spread (Store.auth s) payload) payload)].
      split; [reflexivity|]. cbn [Store.localStorage].
      split; [rewrite <- app_assoc; reflexivity | reflexivity].
    + exists s, []. split; [apply dispatch_Is2StepVerificationRequired|].
      split; [symmetry; apply app_nil_r | reflexivity].
    + exists (Store.mkStore (Store.auth s) (Store.localStorage s ++ [persisted payload])).
      exists [persisted payload].
      split; [reflexivity|]. split; reflexivity.
Qed.

(** ** Signing in and out *)

(** X3.  Whatever the state before, the SignIn transition at time [now]
    sets [isAuthenticated], takes the token and the user id from the
    payload, and leaves the seven other fields, among them the two-step and
    recovery flags, as they were.  As expiry it stores the second that
    holds [now] plus the token's lifetime when [now] plus that lifetime is a
    date, within 8.64e15 ms of the epoch, and [NaN] when it is not. *)
Theorem signin_sets_credentials_keeps_rest
  (now : Z) (payload : Auth.SigninPayload) (s : Store.Store) :
  exists s',
    Store.dispatch now (Auth.Signin payload) s = Some s'
    /\ Model.isAuthenticated (Store.auth s') = true
    /\ Model.access_token (Store.auth s') = Auth.access_token (Auth.accessToken payload)
    /\ Model.userId (Store.auth s') = Auth.userId payload
    /\ Model.expires_at (Store.auth s')
       = (if DateFns.in_range
               (now + Auth.expires_in (Auth.accessToken payload) * 1000)
          then Model.Int (now / 1000 + Auth.expires_in (Auth.accessToken payload))
          else Model.NaN)
    /\ Model.rememberMe (Store.auth s') = Model.rememberMe (Store.auth s)
    /\ Model.username (Store.auth s') = Model.username (Store.auth s)
    /\ Model.is2StepVerificationRequired (Store.auth s')
       = Model.is2StepVerificationRequired (Store.auth s)
    /\ Model.is2StepVerificationSuccessful (Store.auth s')
       = Model.is2StepVerificationSuccessful (Store.auth s)
    /\ Model.isRedeemRecoveryCodeSuccessful (Store.auth s')
       = Model.isRedeemRecoveryCodeSuccessful (Store.auth s)
    /\ Model.activeAuthType (Store.auth s') = Model.activeAuthType (Store.auth s)
    /\ Model.passwordResetCompleted (Store.auth s')
       = Model.passwordResetCompleted (Store.auth s).
Proof.
  rewrite dispatch_Signin. eexists. split; [reflexivity|].
  cbn [Store.auth].
  split; [reflexivity|]. split; [reflexivity|]. split; [reflexivity|].
  split; [apply signin_stores_expiry|].
  cbn. repeat split.
Qed.

(** A lifetime of 1e13 seconds leads beyond the last date: the expiry stored
    is [NaN]. *)
Example signin_beyond_last_date :
  exists s',
    Store.dispatch 1500 (Auth.Signin (Sample.token 10000000000000))
                   (Sample.store_of Model.defaults) = Some s'
    /\ Model.expires_at (Store.auth s') = Model.NaN.
Proof. rewrite dispatch_Signin. eexists. split; reflexivity. Qed.

(** X4.  Signing out after a sign-in leaves the state a sign-out alone would
    have left: nothing of the sign-in survives.  Signing out a second time
    changes nothing in the state. *)
Theorem signout_forgets_signin
  (t1 t2 t3 : Z) (payload : Auth.SigninPayload) (s : Store.Store) :
  exists after_both after_signout again,
    Session.run [(t1, Auth.Signin payload); (t2, Auth.Signout)] s = Some after_both
    /\ Store.dispatch t2 Auth.Signout s = Some after_signout
    /\ Store.auth after_both = Store.auth after_signout
    /\ Store.dispatch t3 Auth.Signout after_both = Some again
    /\ Store.auth again = Store.auth after_both.
Proof.
  cbn [Session.run]. rewrite dispatch_Signin, !dispatch_Signout.
  eexists. eexists. eexists.
  split; [reflexivity|]. split; [reflexivity|].
  split; [reflexivity|].
  rewrite dispatch_Signout. split; reflexivity.
Qed.

(** X5.  [selectDidUserExplicitlySignout] follows the token alone: after a
    sign-out it is true and the session is invalid at every time; after a
    sign-in it is true exactly when the payload's token is the empty string,
    although [isAuthenticated] is then set. *)
Theorem explicit_signout_follows_token
  (now t : Z) (payload : Auth.SigninPayload) (s : Store.Store) :
  exists signed_out_store signed_in_store,
    Store.dispatch now Auth.Signout s = Some signed_out_store
    /\ AuthState.selectDidUserExplicitlySignout (Store.auth signed_out_store) = true
    /\ AuthState.selectIsAuthenticated t (Store.auth signed_out_store) = false
    /\ AuthState.selectAccessToken (Store.auth signed_out_store) = ""
    /\ Store.dispatch now (Auth.Signin payload) s = Some signed_in_store
    /\ AuthState.selectDidUserExplicitlySignout (Store.auth signed_in_store)
       = String.eqb (Auth.access_token (Auth.accessToken payload)) ""
    /\ AuthState.selectAccessToken (Store.auth signed_in_store)
       = Auth.access_token (Auth.accessToken payload).
Proof.
  rewrite dispatch_Signout, dispatch_Signin. eexists. eexists.
  split; [reflexivity|]. split; [reflexivity|]. split; [reflexivity|].
  split; [reflexivity|]. split; [reflexivity|]. split; [reflexivity|].
  cbn. unfold AuthState.selectAccessToken. cbn.
  destruct (String.eqb_spec (Auth.access_token (Auth.accessToken payload)) "") as [E|E];
    [symmetry; exact E | reflexivity].
Qed.

(** ** The remembered username *)

Lemma set_username_same (o : Model.AuthStateModel) :
  Model.set_username (Model.username o) o = o.
Proof. destruct o. reflexivity. Qed.

(** X6.  KeepOrRemoveRememberMeUsername leaves the state as it is when
    [rememberMe] is set and otherwise empties [username], touching no other
    field; dispatching it a second time changes nothing more. *)
Theorem keepOrRemove_clears_unremembered_username
  (t1 t2 : Z) (s : Store.Store) :
  exists s' again,
    Store.dispatch t1 Auth.KeepOrRemoveRememberMeUsername s = Some s'
    /\ Store.auth s'
       = (if Model.rememberMe (Store.auth s)
          then Store.auth s
          else Model.set_username "" (Store.auth s))
    /\ Store.dispatch t2 Auth.KeepOrRemoveRememberMeUsername s' = Some again
    /\ Store.auth again = Store.auth s'.
Proof.
  rewrite dispatch_KeepOrRemoveRememberMeUsername. cbv zeta.
  eexists. eexists. split; [reflexivity|]. cbn [Store.auth].
  split.
  - destruct (Model.rememberMe (Store.auth s));
      [apply set_username_same | reflexivity].
  - rewrite dispatch_KeepOrRemoveRememberMeUsername. cbv zeta.
    split; [reflexivity|]. cbn [Store.auth].
    destruct (Store.auth s) as [? ? ? [] ? ? ? ? ? ? ?]; reflexivity.
Qed.

(** X7.  After a sign-out followed by KeepOrRemoveRememberMeUsername the
    user is signed out, the remember-me choice is the one made before, and
    the username is the old one if that choice was set and empty if not. *)
Theorem signout_then_keepOrRemove (t1 t2 : Z) (s : Store.Store) :
  exists s',
    Session.run [(t1, Auth.Signout); (t2, Auth.KeepOrRemoveRememberMeUsername)] s
      = Some s'
    /\ Model.isAuthenticated (Store.auth s') = false
    /\ Model.access_token (Store.auth s') = ""
    /\ Model.rememberMe (Store.auth s') = Model.rememberMe (Store.auth s)
    /\ Model.username (Store.auth s')
       = (if Model.rememberMe (Store.auth s)
          then Model.username (Store.auth s) else "").
Proof.
  cbn [Session.run].
  rewrite dispatch_Signout, dispatch_KeepOrRemoveRememberMeUsername.
  eexists. split; [reflexivity|]. cbn. repeat split.
Qed.

(** ** The payload-merging handlers *)

Lemma spread_twice (o : Model.AuthStateModel) (p : Model.Partial) :
  Model.spread (Model.spread o p) p = Model.spread o p.
Proof.
  destruct p as [[?|] [?|] [?|] [?|] [?|] [?|] [?|] [?|] [?|] [?|] [?|]];
    reflexivity.
Qed.

(** X8.  Dispatching Is2StepVerificationSuccessful with a boolean sets
    [is2StepVerificationSuccessful] and no other field (in particular not
    [is2StepVerificationRequired]), and, two handlers being registered for
    the action, persists the resulting state twice. *)
Theorem two_step_successful_persists_twice (now : Z) (b : bool) (s : Store.Store) :
  exists s',
    Store.dispatch now
      (Auth.Is2StepVerificationSuccessful (Auth.is2StepVerificationSuccessful_payload b)) s
      = Some s'
    /\ Store.auth s' = Model.set_is2StepVerificationSuccessful b (Store.auth s)
    /\ Model.is2StepVerificationRequired (Store.auth s')
       = Model.is2StepVerificationRequired (Store.auth s)
    /\ Store.localStorage s'
       = (Store.localStorage s
          ++ [persisted (Store.auth s'); persisted (Store.auth s')])%list.
Proof.
  rewrite dispatch_Is2StepVerificationSuccessful. cbv zeta.
  eexists. split; [reflexivity|]. cbn [Store.auth Store.localStorage].
  rewrite spread_twice, <- app_assoc. repeat split.
Qed.

(** X9.  For UpdateRememberMeUsername, SetCurrentUserId, SwitchAuthType,
    IsRedeemRecoveryCodeSuccessful and PasswordResetCompleted: the dispatch
    overwrites the fields the payload holds and keeps the others, persists
    the result once, and dispatching the same action again leaves the state
    as it is. *)
Theorem merging_dispatch_is_idempotent
  (a : Auth.Action) (p : Model.Partial) (t1 t2 : Z) (s : Store.Store) :
  Session.merged_payload a = Some p ->
  exists s' again,
    Store.dispatch t1 a s = Some s'
    /\ Store.auth s' = Model.spread (Store.auth s) p
    /\ Store.localStorage s'
       = (Store.localStorage s ++ [persisted (Store.auth s')])%list
    /\ Store.dispatch t2 a s' = Some again
    /\ Store.auth again = Store.auth s'.
Proof.
  intros Ha. rewrite (dispatch_merging a p t1 s Ha).
  eexists. eexists. split; [reflexivity|]. cbn [Store.auth Store.localStorage].
  split; [reflexivity|]. split; [reflexivity|].
  rewrite (dispatch_merging a p t2 _ Ha). split; [reflexivity|].
  cbn [Store.auth]. apply spread_twice.
Qed.

Lemma merging_dispatch_is_idempotent_witness :
  Session.merged_payload (Auth.SetCurrentUserId Scenario.user_id_payload)
    = Some Scenario.user_id_payload
  /\ exists s' again,
       Store.dispatch 0 (Auth.SetCurrentUserId Scenario.user_id_payload)
                      (Sample.store_of Model.defaults) = Some s'
       /\ Store.auth s' = Model.spread Model.defaults Scenario.user_id_payload
       /\ Store.localStorage s' = [persisted (Store.auth s')]
       /\ Store.dispatch 5 (Auth.SetCurrentUserId Scenario.user_id_payload) s'
          = Some again
       /\ Store.auth again = Store.auth s'.
Proof.
  split; [reflexivity|].
  exact (merging_dispatch_is_idempotent
           (Auth.SetCurrentUserId Scenario.user_id_payload)
           Scenario.user_id_payload 0 5 (Sample.store_of Model.defaults)
           eq_refl).
Defined.

(** ** Validity over time *)

(** X10.  For a fixed state, a session that is valid at some time is valid
    at every earlier time: once [selectIsAuthenticated] has turned false it
    stays false until the state changes. *)
Theorem session_validity_is_monotone
  (st : Model.AuthStateModel) (earlier later : Z) :
  earlier <= later ->
  AuthState.selectIsAuthenticated later st = true ->
  AuthState.selectIsAuthenticated earlier st = true.
Proof.
  unfold AuthState.selectIsAuthenticated, DateFns.isBefore. intros Hle H.
  apply andb_prop in H. destruct H as [Ha Hb]. rewrite Ha. cbn [andb].
  destruct (AuthState._selectExpiresAt st) as [expiry|]; [|discriminate Hb].
  apply Z.ltb_lt in Hb. apply Z.ltb_lt. lia.
Qed.

Lemma session_validity_is_monotone_witness :
  1700 <= 2200
  /\ AuthState.selectIsAuthenticated 2200
       (signed_in 1500 (Sample.token 3600) Model.defaults) = true
  /\ AuthState.selectIsAuthenticated 1700
       (signed_in 1500 (Sample.token 3600) Model.defaults) = true.
Proof.
  assert (Hle : 1700 <= 2200) by lia.
  assert (Hv : AuthState.selectIsAuthenticated 2200
                 (signed_in 1500 (Sample.token 3600) Model.defaults) = true)
    by reflexivity.
  split; [exact Hle | split; [exact Hv|]].
  exact (session_validity_is_monotone _ 1700 2200 Hle Hv).
Defined.

(** X11.  On reads that miss the selector's cache, for a state whose
    expiry is a valid date, [selectExpiresInSeconds] does not tell before
    from after: at the same distance on either side of the expiry it gives
    the same number, and it is zero exactly at the expiry. *)
Theorem expires_in_seconds_is_symmetric
  (st : Model.AuthStateModel) (expiry d now : Z) (id : nat)
  (cache : Selector.Cache (option Q)) :
  let state := Selector.mkObject id st in
  AuthState._selectExpiresAt st = DateFns.at_ms expiry ->
  Selector.hits cache state = false ->
  exists before after at_now : Q,
    fst (Selector.selectExpiresInSeconds (expiry - d) state cache) = Some before
    /\ fst (Selector.selectExpiresInSeconds (expiry + d) state cache) = Some after
    /\ (before == after)%Q
    /\ fst (Selector.selectExpiresInSeconds now state cache) = Some at_now
    /\ ((at_now == 0)%Q <-> now = expiry).
Proof.
  cbv zeta. intros He Hm.
  assert (Hread : forall t,
             fst (Selector.selectExpiresInSeconds t (Selector.mkObject id st) cache)
             = Some (Qabs (inject_Z (expiry - t) / inject_Z 1000))).
  { intros t. unfold Selector.selectExpiresInSeconds, Selector.read.
    destruct cache as [[id' value]|].
    - cbn in Hm. cbn [Selector.identity]. rewrite Hm. cbn [fst Selector.contents].
      rewrite selectExpiresInSeconds_method, He. reflexivity.
    - cbn [fst Selector.contents].
      rewrite selectExpiresInSeconds_method, He. reflexivity. }
  eexists. eexists. eexists.
  split; [apply Hread|]. split; [apply Hread|].
  split; [|split; [apply Hread|]].
  - rewrite !Qabs_ms_to_seconds.
    replace (expiry - (expiry - d)) with d by lia.
    replace (expiry - (expiry + d)) with (- d) by lia.
    rewrite Z.abs_opp. reflexivity.
  - rewrite Qabs_ms_to_seconds. unfold Qeq, Qdiv. cbn. split; intros H; lia.
Qed.

Lemma expires_in_seconds_is_symmetric_witness :
  exists before after at_now : Q,
    fst (Selector.selectExpiresInSeconds (10000 - 2500)
           (Selector.mkObject 1 (Model.set_expires_at 10 Model.defaults)) None)
    = Some before
    /\ fst (Selector.selectExpiresInSeconds (10000 + 2500)
              (Selector.mkObject 1 (Model.set_expires_at 10 Model.defaults)) None)
       = Some after
    /\ (before == after)%Q
    /\ fst (Selector.selectExpiresInSeconds 10000
              (Selector.mkObject 1 (Model.set_expires_at 10 Model.defaults)) None)
       = Some at_now
    /\ ((at_now == 0)%Q <-> 10000 = 10000).
Proof.
  exact (expires_in_seconds_is_symmetric
           (Model.set_expires_at 10 Model.defaults) 10000 2500 10000 1 None
           eq_refl eq_refl).
Defined.

(** X12.  When a read of [selectIsAuthenticated] that misses its cache
    finds the session valid, a read of [selectExpiresInSeconds] that misses
    its cache at the same time is the time left, expiry minus now, in
    seconds, and it is positive. *)
Theorem valid_session_has_time_left
  (now : Z) (st : Model.AuthStateModel) (id : nat)
  (valid_cache : Selector.Cache bool) (seconds_cache : Selector.Cache (option Q)) :
  let state := Selector.mkObject id st in
  Selector.hits valid_cache state = false ->
  Selector.hits seconds_cache state = false ->
  fst (Selector.selectIsAuthenticated now state valid_cache) = true ->
  exists (expiry : Z) (seconds : Q),
    AuthState._selectExpiresAt st = DateFns.at_ms expiry
    /\ fst (Selector.selectExpiresInSeconds now state seconds_cache) = Some seconds
    /\ (seconds == inject_Z (expiry - now) / inject_Z 1000)%Q
    /\ (0 < seconds)%Q.
Proof.
  cbv zeta. intros Hv Hs H.
  assert (Hvalid : AuthState.selectIsAuthenticated now st = true).
  { revert H. unfold Selector.selectIsAuthenticated, Selector.read.
    destruct valid_cache as [[id' value]|]; [|intros H; exact H].
    cbn in Hv. cbn [Selector.identity]. rewrite Hv. intros H; exact H. }
  assert (Hread : fst (Selector.selectExpiresInSeconds now
                         (Selector.mkObject id st) seconds_cache)
                  = AuthState.selectExpiresInSeconds now st).
  { unfold Selector.selectExpiresInSeconds, Selector.read.
    destruct seconds_cache as [[id' value]|]; [|reflexivity].
    cbn in Hs. cbn [Selector.identity]. rewrite Hs. reflexivity. }
  rewrite Hread, selectExpiresInSeconds_method.
  unfold AuthState.selectIsAuthenticated, DateFns.isBefore in Hvalid.
  apply andb_prop in Hvalid. destruct Hvalid as [_ Hb].
  destruct (AuthState._selectExpiresAt st) as [expiry|]; [|discriminate Hb].
  apply Z.ltb_lt in Hb.
  exists expiry. eexists. split; [reflexivity|]. split; [reflexivity|].
  split.
  - rewrite Qabs_ms_to_seconds, Z.abs_eq by lia. reflexivity.
  - rewrite Qabs_ms_to_seconds, Z.abs_eq by lia.
    unfold Qlt, Qdiv. cbn. lia.
Qed.

Lemma valid_session_has_time_left_witness :
  exists (expiry : Z) (seconds : Q),
    AuthState._selectExpiresAt (signed_in 1500 (Sample.token 3600) Model.defaults)
    = DateFns.at_ms expiry
    /\ fst (Selector.selectExpiresInSeconds 2200
              (Selector.mkObject 1 (signed_in 1500 (Sample.token 3600) Model.defaults))
              None) = Some seconds
    /\ (seconds == inject_Z (expiry - 2200) / inject_Z 1000)%Q
    /\ (0 < seconds)%Q.
Proof.
  exact (valid_session_has_time_left 2200
           (signed_in 1500 (Sample.token 3600) Model.defaults) 1 None None
           eq_refl eq_refl eq_refl).
Defined.

(** ** The interceptor *)

(** X13.  Of all failures, only those with status 400 are kept from the
    caller: [_handleError$] returns a throwing observable for every other
    status, whatever the body and the guard. *)
Theorem only_status_400_is_absorbed
  (guard : Js.Value -> bool)
  (service : HttpStatusInterceptor.ServerErrorService)
  (e : HttpStatusInterceptor.HttpErrorResponse) :
  HttpStatusInterceptor.propagates
    (snd (HttpStatusInterceptor._handleError guard service e))
  = negb (HttpStatusInterceptor.status e =? 400).
Proof.
  unfold HttpStatusInterceptor._handleError.
  destruct (HttpStatusInterceptor.status e =? 400); [reflexivity|].
  destruct ((HttpStatusInterceptor.status e =? 401)
            || (HttpStatusInterceptor.status e =? 403)); [reflexivity|].
  destruct (HttpStatusInterceptor.status e =? 500);
    [destruct (guard _); reflexivity|].
  destruct (HttpStatusInterceptor.status e =? 504); reflexivity.
Qed.

(** X14.  Which slot a failure is stored in depends on the status alone.
    For 400, 401 and 403 the body replaces the problem details and the
    server-error slot is kept.  For 500 and 504 the problem details are kept
    and the value stored as server error is the very value thrown.  For
    every other status the service is left as it was and the response itself
    is thrown. *)
Theorem slot_written_depends_on_status
  (guard : Js.Value -> bool)
  (service : HttpStatusInterceptor.ServerErrorService)
  (e : HttpStatusInterceptor.HttpErrorResponse) :
  let status := HttpStatusInterceptor.status e in
  let service' := fst (HttpStatusInterceptor._handleError guard service e) in
  let result := snd (HttpStatusInterceptor._handleError guard service e) in
  if (status =? 400) || (status =? 401) || (status =? 403) then
    service' = HttpStatusInterceptor.mkService (HttpStatusInterceptor.error e)
                 (HttpStatusInterceptor.internalServerErrorDetails service)
  else if (status =? 500) || (status =? 504) then
    HttpStatusInterceptor.problemDetails service'
      = HttpStatusInterceptor.problemDetails service
    /\ result = HttpStatusInterceptor.throwError
                  (HttpStatusInterceptor.details
                     (HttpStatusInterceptor.internalServerErrorDetails service'))
  else
    service' = service
    /\ result = HttpStatusInterceptor.throwError (HttpStatusInterceptor.response e).
Proof.
  cbv zeta. unfold HttpStatusInterceptor._handleError.
  destruct (HttpStatusInterceptor.status e =? 400); [reflexivity|].
  destruct (HttpStatusInterceptor.status e =? 401); [reflexivity|].
  destruct (HttpStatusInterceptor.status e =? 403); [reflexivity|].
  destruct (HttpStatusInterceptor.status e =? 500);
    [destruct (guard _); split; reflexivity|].
  destruct (HttpStatusInterceptor.status e =? 504); split; reflexivity.
Qed.

(** X15.  A failure with status 500 never loses the body: when the guard
    accepts the body, the body itself is stored and thrown; when it does
    not, the stored and thrown object carries status 500 and the body as
    its [message]. *)
Theorem server_error_500_keeps_body
  (guard : Js.Value -> bool)
  (service : HttpStatusInterceptor.ServerErrorService) (body : Js.Value) :
  let outcome :=
    HttpStatusInterceptor._handleError guard service
      (HttpStatusInterceptor.mkResponse 500 body) in
  let stored := HttpStatusInterceptor.internalServerErrorDetails (fst outcome) in
  snd outcome
    = HttpStatusInterceptor.throwError (HttpStatusInterceptor.details stored)
  /\ (if guard body
      then stored = body
      else Js.get "message" stored = body
           /\ Js.get "status" stored = Js.number 500).
Proof.
  cbv zeta. unfold HttpStatusInterceptor._handleError. cbn.
  destruct (guard body); cbn; repeat split.
Qed.

(** X16.  [intercept] hands every event of the exchange on unchanged.  The
    stream it returns completes exactly when the exchange does; it neither
    completes nor fails exactly when the exchange fails with status 400; and
    an exchange that does not fail leaves the error service untouched. *)
Theorem intercept_hangs_only_on_400
  (guard : Js.Value -> bool)
  (service : HttpStatusInterceptor.ServerErrorService)
  (events : list Js.Value)
  (failure : option HttpStatusInterceptor.HttpErrorResponse) :
  let outcome := Intercept.intercept guard service (Intercept.mkExchange events failure) in
  Intercept.seen (snd outcome) = events
  /\ match failure with
     | None =>
         Intercept.ending (snd outcome) = Intercept.completes
         /\ fst outcome = service
     | Some e =>
         if HttpStatusInterceptor.status e =? 400
         then Intercept.ending (snd outcome) = Intercept.never_ends
         else exists x, Intercept.ending (snd outcome) = Intercept.errors x
     end.
Proof.
  cbv zeta. unfold Intercept.intercept. cbn [Intercept.failure Intercept.events].
  destruct failure as [e|]; [|repeat split].
  pose proof (only_status_400_is_absorbed guard service e) as Hp.
  destruct (HttpStatusInterceptor._handleError guard service e) as [service' [|x]];
    cbn in Hp |- *; split; try reflexivity.
  - destruct (HttpStatusInterceptor.status e =? 400); [reflexivity | discriminate Hp].
  - destruct (HttpStatusInterceptor.status e =? 400); [discriminate Hp | exists x; reflexivity].
Qed.

(** ** The sign-in form *)

(** X17.  Submitting the sign-in form never leaves a ['serverError'] on the
    email control, whether or not the sign-in is started, and never adds an
    error to it. *)
Theorem submit_clears_server_error
  (model : SignInContainerComponent.SigninUser)
  (c : SignInContainerComponent.Component) (code : string) :
  let c' := fst (SignInContainerComponent._onSigninSubmitted model c) in
  SignInContainerComponent.hasError "serverError"
    (SignInContainerComponent.email_errors c') = false
  /\ (SignInContainerComponent.hasError code
        (SignInContainerComponent.email_errors c') = true ->
      SignInContainerComponent.hasError code
        (SignInContainerComponent.email_errors c) = true).
Proof.
  cbv zeta. unfold SignInContainerComponent._onSigninSubmitted.
  destruct (SignInContainerComponent.hasError "serverError"
              (SignInContainerComponent.email_errors c)) eqn:E;
    destruct (negb _ && negb _); cbn; (split; [try reflexivity; exact E|]);
    intros H; try discriminate H; exact H.
Qed.

Lemma submit_clears_server_error_witness :
  SignInContainerComponent.hasError "required"
    (SignInContainerComponent.email_errors
       (fst (SignInContainerComponent._onSigninSubmitted
               (SignInContainerComponent.mkSigninUser "" "" false)
               (SignInContainerComponent.mkComponent (Some ["required"]))))) = true
  /\ SignInContainerComponent.hasError "required" (Some ["required"]) = true.
Proof.
  assert (H : SignInContainerComponent.hasError "required"
                (SignInContainerComponent.email_errors
                   (fst (SignInContainerComponent._onSigninSubmitted
                           (SignInContainerComponent.mkSigninUser "" "" false)
                           (SignInContainerComponent.mkComponent (Some ["required"])))))
              = true) by reflexivity.
  split; [exact H|].
  exact (proj2 (submit_clears_server_error
                  (SignInContainerComponent.mkSigninUser "" "" false)
                  (SignInContainerComponent.mkComponent (Some ["required"]))
                  "required") H).
Defined.

(** ** The two-factor component: toggle, messages, outputs *)

(** X18.  When the user flips the slide toggle and the request fails, the
    toggle goes back to the server's setting: after the toggle handler, an
    error input with a truthy value (of either kind), the loading input and
    the deferred callback, [checked] equals [twoFactorEnabled], whatever it
    was. *)
Theorem toggle_reverts_after_failed_request
  (c : TwoFactorAuthenticationComponent.Component)
  (event failure : Js.Value) (old loading : bool) :
  TwoFactorAuthenticationComponent.toggle_checked c = Some old ->
  Js.truthy failure = true ->
  TwoFactorAuthenticationComponent.toggle_checked
    (TwoFactorAuthenticationComponent.run
       [TwoFactorAuthenticationComponent.TwoFactorAuthToggle event;
        TwoFactorAuthenticationComponent.ProblemDetailsInput failure;
        TwoFactorAuthenticationComponent.TwoFactorAuthToggleLoadingInput loading;
        TwoFactorAuthenticationComponent.TimeoutFires] c)
    = Some (TwoFactorAuthenticationComponent.twoFactorEnabled c)
  /\ TwoFactorAuthenticationComponent.toggle_checked
       (TwoFactorAuthenticationComponent.run
          [TwoFactorAuthenticationComponent.TwoFactorAuthToggle event;
           TwoFactorAuthenticationComponent.InternalServerErrorDetailsInput failure;
           TwoFactorAuthenticationComponent.TwoFactorAuthToggleLoadingInput loading;
           TwoFactorAuthenticationComponent.TimeoutFires] c)
     = Some (TwoFactorAuthenticationComponent.twoFactorEnabled c).
Proof.
  intros Ht Hf. cbn. rewrite Ht, Hf. cbn. rewrite ?orb_true_r. split; reflexivity.
Qed.

Lemma toggle_reverts_after_failed_request_witness :
  TwoFactorAuthenticationComponent.toggle_checked Scenario.toggled_on = Some true
  /\ Js.truthy Sample.problem = true
  /\ TwoFactorAuthenticationComponent.toggle_checked
       (TwoFactorAuthenticationComponent.run
          [TwoFactorAuthenticationComponent.TwoFactorAuthToggle Js.null;
           TwoFactorAuthenticationComponent.ProblemDetailsInput Sample.problem;
           TwoFactorAuthenticationComponent.TwoFactorAuthToggleLoadingInput false;
           TwoFactorAuthenticationComponent.TimeoutFires] Scenario.toggled_on)
     = Some false.
Proof.
  split; [reflexivity | split; [reflexivity|]].
  exact (proj1 (toggle_reverts_after_failed_request
                  Scenario.toggled_on Js.null Sample.problem true false
                  eq_refl eq_refl)).
Defined.

(** X19.  When no error arrives, the toggle stays where the user put it:
    after the toggle handler, which clears both error slots, the loading
    input may change and its deferred callbacks may run, [checked] is what
    it was. *)
Theorem toggle_stays_without_error
  (c : TwoFactorAuthenticationComponent.Component) (event : Js.Value) :
  TwoFactorAuthenticationComponent.toggle_checked
    (TwoFactorAuthenticationComponent.run
       [TwoFactorAuthenticationComponent.TwoFactorAuthToggle event;
        TwoFactorAuthenticationComponent.TwoFactorAuthToggleLoadingInput true;
        TwoFactorAuthenticationComponent.TimeoutFires;
        TwoFactorAuthenticationComponent.TwoFactorAuthToggleLoadingInput false;
        TwoFactorAuthenticationComponent.TimeoutFires] c)
  = TwoFactorAuthenticationComponent.toggle_checked c.
Proof.
  cbn. destruct (TwoFactorAuthenticationComponent.toggle_checked c); reflexivity.
Qed.

(** X20.  After a handler that clears the errors, asking for either error
    message fails: both getters read a property of [null].  After the
    [problemDetails] input was given an object, the problem message is that
    object's [detail]. *)
Theorem error_messages_need_an_error
  (guard : Js.Value -> bool)
  (ev : TwoFactorAuthenticationComponent.Event)
  (c : TwoFactorAuthenticationComponent.Component)
  (fields : list (string * Js.Value)) :
  TwoFactorAuthenticationComponent.clearing ev = true ->
  TwoFactorMessages._getProblemDetailsErrorMessage
    (TwoFactorAuthenticationComponent.step ev c) = None
  /\ TwoFactorMessages._getInternalServerErrorMessage guard
       (TwoFactorAuthenticationComponent.step ev c) = None
  /\ TwoFactorMessages._getProblemDetailsErrorMessage
       (TwoFactorAuthenticationComponent.set_problemDetails (Js.object fields)
          (TwoFactorAuthenticationComponent.step ev c))
     = Some (Js.lookup "detail" fields).
Proof.
  intros Hc.
  unfold TwoFactorMessages._getInternalServerErrorMessage,
    TwoFactorMessages._doesInternalServerErrorImplementOdmWebApiException.
  destruct ev; try discriminate Hc; cbn;
    destruct (guard Js.null); repeat split.
Qed.

Lemma error_messages_need_an_error_witness :
  TwoFactorAuthenticationComponent.clearing
    TwoFactorAuthenticationComponent.UserCodesPanelClosed = true
  /\ TwoFactorMessages._getProblemDetailsErrorMessage
       (TwoFactorAuthenticationComponent.step
          TwoFactorAuthenticationComponent.UserCodesPanelClosed
          Sample.failed_verification) = None.
Proof.
  split; [reflexivity|].
  exact (proj1 (error_messages_need_an_error Scenario.detail_guard
                  TwoFactorAuthenticationComponent.UserCodesPanelClosed
                  Sample.failed_verification [] eq_refl)).
Defined.

(** X21.  What the interceptor stores for a failure is what the component
    shows once it receives it as [internalServerErrorDetails], provided the
    guard rejects the object the interceptor builds: "Server is down." for
    status 504, and the response body for status 500 with a body the guard
    rejects. *)
Theorem stored_server_error_is_displayed
  (guard : Js.Value -> bool)
  (service : HttpStatusInterceptor.ServerErrorService) (body : Js.Value)
  (c : TwoFactorAuthenticationComponent.Component) :
  let stored (status : Z) :=
    HttpStatusInterceptor.internalServerErrorDetails
      (fst (HttpStatusInterceptor._handleError guard service
              (HttpStatusInterceptor.mkResponse status body))) in
  let shown (status : Z) :=
    TwoFactorMessages._getInternalServerErrorMessage guard
      (TwoFactorAuthenticationComponent.set_internalServerErrorDetails
         (stored status) c) in
  guard (stored 504) = false ->
  guard body = false ->
  guard (stored 500) = false ->
  shown 504 = Some (Js.str "Server is down.") /\ shown 500 = Some body.
Proof.
  cbv zeta.
  unfold TwoFactorMessages._getInternalServerErrorMessage,
    TwoFactorMessages._doesInternalServerErrorImplementOdmWebApiException,
    HttpStatusInterceptor._handleError.
  cbn. intros H504 Hbody. rewrite Hbody. cbn. intros H500.
  rewrite H504, H500. split; reflexivity.
Qed.

Lemma stored_server_error_is_displayed_witness :
  TwoFactorMessages._getInternalServerErrorMessage Scenario.detail_guard
    (TwoFactorAuthenticationComponent.set_internalServerErrorDetails
       (HttpStatusInterceptor.internalServerErrorDetails
          (fst (HttpStatusInterceptor._handleError Scenario.detail_guard
                  Sample.service
                  (HttpStatusInterceptor.mkResponse 504 (Js.str "Gateway Time-out")))))
       Sample.failed_verification)
  = Some (Js.str "Server is down.").
Proof.
  exact (proj1 (stored_server_error_is_displayed Scenario.detail_guard
                  Sample.service (Js.str "Gateway Time-out")
                  Sample.failed_verification eq_refl eq_refl eq_refl)).
Defined.

(** X22.  The inputs and the deferred callbacks never send anything through
    the outputs: after any sequence of events that holds no user action the
    list of emitted values is what it was. *)
Theorem only_user_actions_emit
  (evs : list TwoFactorAuthenticationComponent.Event) :
  forallb (fun ev => negb (TwoFactorAuthenticationComponent.user_action ev)) evs = true ->
  forall c,
    TwoFactorAuthenticationComponent.emitted
      (TwoFactorAuthenticationComponent.run evs c)
    = TwoFactorAuthenticationComponent.emitted c.
Proof.
  induction evs as [|ev rest IH]; intros H c; [reflexivity|].
  cbn in H. apply andb_prop in H. destruct H as [Hev Hrest].
  cbn [TwoFactorAuthenticationComponent.run]. rewrite (IH Hrest).
  destruct ev; try discriminate Hev; cbn; try reflexivity.
  - unfold TwoFactorAuthenticationComponent.set_authenticatorSetup.
    destruct (negb _ && negb _); reflexivity.
  - unfold TwoFactorAuthenticationComponent.timeout_callback.
    destruct (TwoFactorAuthenticationComponent.timeouts c); reflexivity.
Qed.

Lemma only_user_actions_emit_witness :
  TwoFactorAuthenticationComponent.emitted
    (TwoFactorAuthenticationComponent.run
       [TwoFactorAuthenticationComponent.ProblemDetailsInput Sample.problem;
        TwoFactorAuthenticationComponent.TwoFactorAuthToggleLoadingInput false;
        TwoFactorAuthenticationComponent.TimeoutFires]
       Scenario.toggled_on)
  = TwoFactorAuthenticationComponent.emitted Scenario.toggled_on.
Proof.
  exact (only_user_actions_emit
           [TwoFactorAuthenticationComponent.ProblemDetailsInput Sample.problem;
            TwoFactorAuthenticationComponent.TwoFactorAuthToggleLoadingInput false;
            TwoFactorAuthenticationComponent.TimeoutFires]
           eq_refl Scenario.toggled_on).
Defined.

(** ** The setup wizard *)

(** X23.  In the setup wizard each error input nulls the other error slot,
    stores its value and marks its own kind of error as not yet handled,
    leaving the other kind's flag alone. *)
Theorem wizard_error_inputs_are_exclusive
  (c : TwoFactorAuthenticationSetupWizardComponent.Component) (v : Js.Value) :
  let p := TwoFactorAuthenticationSetupWizardComponent.set_problemDetails v c in
  let i := TwoFactorAuthenticationSetupWizardComponent.set_internalServerErrorDetails v c in
  (TwoFactorAuthenticationSetupWizardComponent._problemDetails p = v
   /\ TwoFactorAuthenticationSetupWizardComponent._internalServerErrorDetails p = Js.null
   /\ TwoFactorAuthenticationSetupWizardComponent._problemDetailsServerErrorHandled p = false
   /\ TwoFactorAuthenticationSetupWizardComponent._internalServerErrorDetailsHandled p
      = TwoFactorAuthenticationSetupWizardComponent._internalServerErrorDetailsHandled c)
  /\ (TwoFactorAuthenticationSetupWizardComponent._internalServerErrorDetails i = v
      /\ TwoFactorAuthenticationSetupWizardComponent._problemDetails i = Js.null
      /\ TwoFactorAuthenticationSetupWizardComponent._internalServerErrorDetailsHandled i = false
      /\ TwoFactorAuthenticationSetupWizardComponent._problemDetailsServerErrorHandled i
         = TwoFactorAuthenticationSetupWizardComponent._problemDetailsServerErrorHandled c).
Proof. repeat split. Qed.

(** X24.  A setup result whose status is not 'Succeeded' is ignored
    altogether: the component is left exactly as it was and nothing is
    deferred. *)
Theorem wizard_ignores_failed_result
  (value : TwoFactorAuthenticationSetupWizardComponent.TwoFactorAuthenticationSetupResult)
  (c : TwoFactorAuthenticationSetupWizardComponent.Component) :
  TwoFactorAuthenticationSetupWizardComponent.status value <> "Succeeded" ->
  TwoFactorAuthenticationSetupWizardComponent.set_twoFactorAuthenticationSetupResult
    value c = c.
Proof.
  intros H. unfold TwoFactorAuthenticationSetupWizardComponent.set_twoFactorAuthenticationSetupResult.
  apply String.eqb_neq in H. rewrite H. reflexivity.
Qed.

Lemma wizard_ignores_failed_result_witness :
  "Failed" <> "Succeeded"
  /\ TwoFactorAuthenticationSetupWizardComponent.set_twoFactorAuthenticationSetupResult
       (TwoFactorAuthenticationSetupWizardComponent.mkResult "Failed" Js.null)
       Scenario.wizard = Scenario.wizard.
Proof.
  assert (H : "Failed" <> "Succeeded") by discriminate.
  split; [exact H|].
  exact (wizard_ignores_failed_result
           (TwoFactorAuthenticationSetupWizardComponent.mkResult "Failed" Js.null)
           Scenario.wizard H).
Defined.

(** X25.  A succeeded result marks the setup completed at once but is
    stored only by the deferred callback.  With no callback pending before:
    finishing after the callback emits that result and the stepper has
    advanced once; finishing before the callback emits the result stored
    earlier (none, if there was none). *)
Theorem wizard_result_arrives_with_callback
  (value : TwoFactorAuthenticationSetupWizardComponent.TwoFactorAuthenticationSetupResult)
  (c : TwoFactorAuthenticationSetupWizardComponent.Component) :
  TwoFactorAuthenticationSetupWizardComponent.status value = "Succeeded" ->
  TwoFactorAuthenticationSetupWizardComponent.timeouts c = [] ->
  let received :=
    TwoFactorAuthenticationSetupWizardComponent.set_twoFactorAuthenticationSetupResult
      value c in
  let late :=
    TwoFactorAuthenticationSetupWizardComponent.run
      [TwoFactorAuthenticationSetupWizardComponent.TimeoutFires;
       TwoFactorAuthenticationSetupWizardComponent.FinishSetup] received in
  let early :=
    TwoFactorAuthenticationSetupWizardComponent.run
      [TwoFactorAuthenticationSetupWizardComponent.FinishSetup] received in
  TwoFactorAuthenticationSetupWizardComponent._is2faSetupCompleted received = true
  /\ TwoFactorAuthenticationSetupWizardComponent._codeVerificationSucceeded received = true
  /\ TwoFactorAuthenticationSetupWizardComponent.emitted late
     = (TwoFactorAuthenticationSetupWizardComponent.emitted c
        ++ [TwoFactorAuthenticationSetupWizardComponent.finish2faSetupClicked
              (Some value)])%list
  /\ TwoFactorAuthenticationSetupWizardComponent.stepper_next late
     = S (TwoFactorAuthenticationSetupWizardComponent.stepper_next c)
  /\ TwoFactorAuthenticationSetupWizardComponent.emitted early
     = (TwoFactorAuthenticationSetupWizardComponent.emitted c
        ++ [TwoFactorAuthenticationSetupWizardComponent.finish2faSetupClicked
              (TwoFactorAuthenticationSetupWizardComponent._twoFactorAuthenticationSetupResult c)])%list.
Proof.
  intros Hs Ht. cbv zeta.
  unfold TwoFactorAuthenticationSetupWizardComponent.set_twoFactorAuthenticationSetupResult.
  rewrite Hs. cbn.
  unfold TwoFactorAuthenticationSetupWizardComponent.timeout_callback. cbn.
  rewrite Ht. cbn. repeat split.
Qed.

Lemma wizard_result_arrives_with_callback_witness :
  TwoFactorAuthenticationSetupWizardComponent.status Scenario.succeeded = "Succeeded"
  /\ TwoFactorAuthenticationSetupWizardComponent.timeouts Scenario.wizard = []
  /\ TwoFactorAuthenticationSetupWizardComponent.emitted
       (TwoFactorAuthenticationSetupWizardComponent.run
          [TwoFactorAuthenticationSetupWizardComponent.FinishSetup]
          (TwoFactorAuthenticationSetupWizardComponent.set_twoFactorAuthenticationSetupResult
             Scenario.succeeded Scenario.wizard))
     = [TwoFactorAuthenticationSetupWizardComponent.finish2faSetupClicked None].
Proof.
  split; [reflexivity | split; [reflexivity|]].
  exact (proj2 (proj2 (proj2 (proj2
           (wizard_result_arrives_with_callback Scenario.succeeded Scenario.wizard
              eq_refl eq_refl))))).
Defined.

(** X26.  Nothing the wizard does takes the completion back: once
    [_is2faSetupCompleted] and [_codeVerificationSucceeded] are set they
    stay set through every sequence of inputs, callbacks and handlers. *)
Theorem wizard_completion_is_permanent
  (evs : list TwoFactorAuthenticationSetupWizardComponent.Event) :
  forall c,
    TwoFactorAuthenticationSetupWizardComponent._is2faSetupCompleted c = true ->
    TwoFactorAuthenticationSetupWizardComponent._codeVerificationSucceeded c = true ->
    TwoFactorAuthenticationSetupWizardComponent._is2faSetupCompleted
      (TwoFactorAuthenticationSetupWizardComponent.run evs c) = true
    /\ TwoFactorAuthenticationSetupWizardComponent._codeVerificationSucceeded
         (TwoFactorAuthenticationSetupWizardComponent.run evs c) = true.
Proof.
  induction evs as [|ev rest IH]; intros c H1 H2; [split; assumption|].
  cbn [TwoFactorAuthenticationSetupWizardComponent.run].
  apply IH; destruct ev; cbn; try assumption.
  - unfold TwoFactorAuthenticationSetupWizardComponent.set_twoFactorAuthenticationSetupResult.
    destruct (String.eqb _ _); [reflexivity | assumption].
  - unfold TwoFactorAuthenticationSetupWizardComponent.timeout_callback.
    destruct (TwoFactorAuthenticationSetupWizardComponent.timeouts c); assumption.
  - unfold TwoFactorAuthenticationSetupWizardComponent.set_twoFactorAuthenticationSetupResult.
    destruct (String.eqb _ _); [reflexivity | assumption].
  - unfold TwoFactorAuthenticationSetupWizardComponent.timeout_callback.
    destruct (TwoFactorAuthenticationSetupWizardComponent.timeouts c); assumption.
Qed.

Lemma wizard_completion_is_permanent_witness :
  TwoFactorAuthenticationSetupWizardComponent._is2faSetupCompleted
    (TwoFactorAuthenticationSetupWizardComponent.run
       [TwoFactorAuthenticationSetupWizardComponent.TimeoutFires;
        TwoFactorAuthenticationSetupWizardComponent.ProblemDetailsInput Sample.problem;
        TwoFactorAuthenticationSetupWizardComponent.SetupResultInput
          (TwoFactorAuthenticationSetupWizardComponent.mkResult "Failed" Js.null);
        TwoFactorAuthenticationSetupWizardComponent.CancelClicked]
       (TwoFactorAuthenticationSetupWizardComponent.set_twoFactorAuthenticationSetupResult
          Scenario.succeeded Scenario.wizard)) = true.
Proof.
  exact (proj1 (wizard_completion_is_permanent
                  [TwoFactorAuthenticationSetupWizardComponent.TimeoutFires;
                   TwoFactorAuthenticationSetupWizardComponent.ProblemDetailsInput Sample.problem;
                   TwoFactorAuthenticationSetupWizardComponent.SetupResultInput
                     (TwoFactorAuthenticationSetupWizardComponent.mkResult "Failed" Js.null);
                   TwoFactorAuthenticationSetupWizardComponent.CancelClicked]
                  (TwoFactorAuthenticationSetupWizardComponent.set_twoFactorAuthenticationSetupResult
                     Scenario.succeeded Scenario.wizard)
                  eq_refl eq_refl)).
Defined.

(** ** The wizard panel of the two-factor component *)

(** X27.  The setup wizard is shown by one thing only, an
    [authenticatorSetup] input whose [authenticatorUri] and [sharedKey] are
    both non-empty: through any sequence of events without such an input a
    hidden wizard stays hidden.  Such an input shows it, and cancelling or
    finishing the setup hides it again, whatever happened before. *)
Theorem wizard_opens_only_on_complete_setup
  (evs : list TwoFactorAuthenticationComponent.Event) :
  forallb (fun ev => negb (opens_wizard ev)) evs = true ->
  forall (c : TwoFactorAuthenticationComponent.Component) (event : Js.Value),
    (TwoFactorAuthenticationComponent._showTwoFactorAuthSetupWizard c = false ->
     TwoFactorAuthenticationComponent._showTwoFactorAuthSetupWizard
       (TwoFactorAuthenticationComponent.run evs c) = false)
    /\ TwoFactorAuthenticationComponent._showTwoFactorAuthSetupWizard
         (TwoFactorAuthenticationComponent._onCancelSetupWizard
            (TwoFactorAuthenticationComponent.run evs c)) = false
    /\ TwoFactorAuthenticationComponent._showTwoFactorAuthSetupWizard
         (TwoFactorAuthenticationComponent._onFinish2faSetup event
            (TwoFactorAuthenticationComponent.run evs c)) = false
    /\ (forall value,
          opens_wizard (TwoFactorAuthenticationComponent.AuthenticatorSetupInput value)
            = true ->
          TwoFactorAuthenticationComponent._showTwoFactorAuthSetupWizard
            (TwoFactorAuthenticationComponent.set_authenticatorSetup value
               (TwoFactorAuthenticationComponent.run evs c)) = true).
Proof.
  intros Hevs c event. split; [|split; [reflexivity | split; [reflexivity|]]].
  2: { intros value Hv. cbn in Hv.
       unfold TwoFactorAuthenticationComponent.set_authenticatorSetup.
       rewrite Hv. reflexivity. }
  revert c. induction evs as [|ev rest IH]; intros c Hc; [exact Hc|].
  cbn in Hevs. apply andb_prop in Hevs. destruct Hevs as [Hev Hrest].
  cbn [TwoFactorAuthenticationComponent.run]. apply (IH Hrest).
  destruct ev; cbn; try exact Hc; try reflexivity.
  - unfold TwoFactorAuthenticationComponent.set_authenticatorSetup.
    cbn in Hev. apply negb_true_iff in Hev. rewrite Hev. exact Hc.
  - unfold TwoFactorAuthenticationComponent.timeout_callback.
    destruct (TwoFactorAuthenticationComponent.timeouts c); exact Hc.
Qed.

Lemma wizard_opens_only_on_complete_setup_witness :
  TwoFactorAuthenticationComponent._showTwoFactorAuthSetupWizard
    Scenario.toggled_on = false
  /\ TwoFactorAuthenticationComponent._showTwoFactorAuthSetupWizard
       (TwoFactorAuthenticationComponent.run
          [TwoFactorAuthenticationComponent.AuthenticatorSetupInput
             (TwoFactorAuthenticationComponent.mkSetup "otpauth://totp/app" "");
           TwoFactorAuthenticationComponent.TwoFactorAuthToggle Js.null]
          Scenario.toggled_on) = false.
Proof.
  split; [reflexivity|].
  exact (proj1 (wizard_opens_only_on_complete_setup
                  [TwoFactorAuthenticationComponent.AuthenticatorSetupInput
                     (TwoFactorAuthenticationComponent.mkSetup "otpauth://totp/app" "");
                   TwoFactorAuthenticationComponent.TwoFactorAuthToggle Js.null]
                  eq_refl Scenario.toggled_on Js.null) eq_refl).
Defined.
